(** * 508 Spendings API: a shallow embedding of the request handlers

    The handlers of [main.py] and the record shapes of [schemas.py] are
    embedded as pure functions over an explicit document store.  Amounts
    are IEEE-754 binary64 values (Python [float]), a datetime is naive or
    carries a UTC offset, the reading of the UTC clock is an argument of
    the handlers that ask for the time, and a handler that can raise
    returns a [result]. *)

From Stdlib Require Import ZArith NArith List String Ascii Bool Lia.
From Stdlib Require Import Permutation Sorting.Sorted SpecFloat HexString.
From Stdlib Require Import OrderedTypeEx.
From stdpp Require Import gmap strings.

Import ListNotations.
Local Open Scope string_scope.

(** ** Python numbers *)

Module Py.

(** Python [float] is IEEE-754 binary64. *)
Definition prec : Z := 53.
Definition emax : Z := 1024.

Definition float := spec_float.

Definition fzero : float := S754_zero false.

(** [abs(x)] on a float clears the sign; NaN stays NaN. *)
Definition fabs (x : float) : float := SFabs x.

(** Unary minus flips the sign. *)
Definition fneg (x : float) : float := SFopp x.

Definition fadd (x y : float) : float := SFadd prec emax x y.

(** [x <= y], [x < y], [x == y]; every comparison with NaN is false. *)
Definition fle (x y : float) : bool := SFleb x y.
Definition flt (x y : float) : bool := SFltb x y.
Definition feq (x y : float) : bool := SFeqb x y.

(** A number is an [int] or a [float]: [sum] starts from the int [0]
    and [dict.setdefault(cat, 0)] stores the int [0]. *)
Inductive number :=
| Int (z : Z)
| Float (f : float).

(** [float(z)], rounding to nearest even. *)
Definition float_of_int (z : Z) : float := binary_normalize prec emax z 0 false.

(** [x + y] with Python's int-to-float coercion. *)
Definition add (x y : number) : number :=
  match x, y with
  | Int a, Int b => Int (a + b)
  | Int a, Float g => Float (fadd (float_of_int a) g)
  | Float f, Int b => Float (fadd f (float_of_int b))
  | Float f, Float g => Float (fadd f g)
  end.

(** [x == y] on numbers (the ints met here are sums of the default [0]). *)
Definition eqb (x y : number) : bool :=
  match x, y with
  | Int a, Int b => Z.eqb a b
  | Int a, Float g => feq (float_of_int a) g
  | Float f, Int b => feq f (float_of_int b)
  | Float f, Float g => feq f g
  end.

(** [sum(xs)] before CPython 3.12: additions from left to right, starting
    from the int [0]. *)
Definition sum (xs : list number) : number := fold_left add xs (Int 0).

(** CPython 3.12 changed [sum] on floats: next to the running sum it
    keeps a compensation [c] for the rounding errors (Neumaier's
    variant of Kahan's summation) and adds it at the end when it is
    finite and not zero.  The running sum is the one of [sum]. *)
Definition is_finite (x : float) : bool :=
  match x with
  | S754_zero _ | S754_finite _ _ _ => true
  | S754_infinity _ | S754_nan => false
  end.

Definition fsub (x y : float) : float := SFsub prec emax x y.

Definition neumaier_step (acc : float * float) (x : number) : float * float :=
  let (f_result, c) := acc in
  match x with
  | Float x =>
      let t := fadd f_result x in
      (t, if fle (fabs x) (fabs f_result)
          then fadd c (fadd (fsub f_result t) x)
          else fadd c (fadd (fsub x t) f_result))
  | Int z => (fadd f_result (float_of_int z), c)
  end.

Definition neumaier_finish (acc : float * float) : float :=
  let (f_result, c) := acc in
  if negb (feq c fzero) && is_finite c then fadd f_result c else f_result.

Fixpoint sum_from (i : Z) (xs : list number) : number :=
  match xs with
  | [] => Int i
  | Int z :: xs' => sum_from (i + z) xs'
  | Float f :: xs' =>
      Float (neumaier_finish
               (fold_left neumaier_step xs' (fadd (float_of_int i) f, fzero)))
  end.

Definition sum_compensated (xs : list number) : number := sum_from 0 xs.

(** The interpreter that runs the handlers is not fixed by the sources;
    its builtin [sum] is the plain one before CPython 3.12 and the
    compensated one from 3.12 on. *)
Inductive cpython :=
| Before_3_12
| From_3_12.

Definition builtin_sum (v : cpython) (xs : list number) : number :=
  match v with
  | Before_3_12 => sum xs
  | From_3_12 => sum_compensated xs
  end.

(** Truthiness of an [Optional[str]]: [None] and the empty string are false. *)
Definition truthy (o : option string) : bool :=
  match o with
  | None => false
  | Some s => negb (String.eqb s "")
  end.

End Py.

(** ** Datetimes *)

(** The calendar and clock fields of a [datetime]. *)
Record wall_clock := {
  year : N; month : N; day : N;
  hour : N; minute : N; second : N; microsecond : N
}.

(** A [datetime]: its fields and its UTC offset in minutes, [None] for a
    naive datetime (one without [tzinfo]). *)
Record datetime := {
  wall : wall_clock;
  utcoffset : option Z
}.

(** [datetime.now(timezone.utc)] when the UTC clock reads [clock]. *)
Definition utcnow (clock : wall_clock) : datetime :=
  {| wall := clock; utcoffset := Some 0%Z |}.

Definition lex (c1 c2 : comparison) : comparison :=
  match c1 with Eq => c2 | _ => c1 end.

(** Field by field comparison. *)
Definition wall_compare (a b : wall_clock) : comparison :=
  lex (N.compare (year a) (year b))
  (lex (N.compare (month a) (month b))
  (lex (N.compare (day a) (day b))
  (lex (N.compare (hour a) (hour b))
  (lex (N.compare (minute a) (minute b))
  (lex (N.compare (second a) (second b))
       (N.compare (microsecond a) (microsecond b))))))).

(** The proleptic Gregorian ordinal of a date, as the [datetime] module
    computes it. *)
Definition is_leap (y : Z) : bool :=
  (y mod 4 =? 0)%Z && (negb (y mod 100 =? 0)%Z || (y mod 400 =? 0)%Z).

Definition days_before_year (y : Z) : Z :=
  let y := (y - 1)%Z in
  (y * 365 + y / 4 - y / 100 + y / 400)%Z.

Definition days_before_month (y m : Z) : Z :=
  (nth (Z.to_nat m) [0; 0; 31; 59; 90; 120; 151; 181; 212; 243; 273; 304; 334] 0
   + (if (2 <? m)%Z && is_leap y then 1 else 0))%Z.

Definition ymd2ord (y m d : Z) : Z :=
  (days_before_year y + days_before_month y m + d)%Z.

(** The microseconds from the start of ordinal day 0 to the instant a
    datetime of offset [off] denotes. *)
Definition instant (w : wall_clock) (off : Z) : Z :=
  let days := ymd2ord (Z.of_N (year w)) (Z.of_N (month w)) (Z.of_N (day w)) in
  let minutes := ((days * 24 + Z.of_N (hour w)) * 60 + Z.of_N (minute w) - off)%Z in
  ((minutes * 60 + Z.of_N (second w)) * 1000000 + Z.of_N (microsecond w))%Z.

(** Comparison of two datetimes: by fields when both are naive or both
    carry the same offset, by instant when the offsets differ, and no
    answer ([TypeError]) between a naive and an aware datetime. *)
Definition dt_compare (a b : datetime) : option comparison :=
  match utcoffset a, utcoffset b with
  | None, None => Some (wall_compare (wall a) (wall b))
  | Some oa, Some ob =>
      if Z.eqb oa ob then Some (wall_compare (wall a) (wall b))
      else Some (Z.compare (instant (wall a) oa) (instant (wall b) ob))
  | _, _ => None
  end.


Definition digit (n : N) : ascii := ascii_of_N (48 + n mod 10).

(** The [w] low decimal digits of [n], most significant first: the [%0wd]
    rendering of a field that fits in [w] digits. *)
Fixpoint zpad (w : nat) (n : N) : string :=
  match w with
  | O => EmptyString
  | S w' => zpad w' (n / 10) ++ String (digit n) EmptyString
  end.

(** The fraction of a second and the offset in an ISO text. *)
Definition iso_fraction (us : N) : string :=
  if N.eqb us 0 then "" else "." ++ zpad 6 us.

Definition iso_offset (off : option Z) : string :=
  match off with
  | None => ""
  | Some z =>
      (if (z <? 0)%Z then "-" else "+") ++
      zpad 2 (Z.to_N (Z.abs z) / 60) ++ ":" ++ zpad 2 (Z.to_N (Z.abs z) mod 60)
  end.


(** [datetime.isoformat()]: [YYYY-MM-DDTHH:MM:SS], then [.ffffff] when the
    microsecond field is not zero, then [+HH:MM] or [-HH:MM] when the
    datetime is aware. *)
Definition isoformat (d : datetime) : string :=
  let w := wall d in
  zpad 4 (year w) ++ "-" ++ zpad 2 (month w) ++ "-" ++ zpad 2 (day w) ++ "T" ++
  zpad 2 (hour w) ++ ":" ++ zpad 2 (minute w) ++ ":" ++ zpad 2 (second w) ++
  iso_fraction (microsecond w) ++ iso_offset (utcoffset d).

(** ** Errors *)

Inductive error :=
| ValidationError
| TypeError
| HTTPException (status_code : Z) (detail : string).

Inductive result (A : Type) :=
| Ok (a : A)
| Raise (e : error).
Arguments Ok {A} a.
Arguments Raise {A} e.

Definition bind {A B} (r : result A) (k : A -> result B) : result B :=
  match r with
  | Ok a => k a
  | Raise e => Raise e
  end.

Notation "'let!' x ':=' r 'in' k" := (bind r (fun x => k))
  (at level 10, x name, r at level 100, k at level 200).

(** The 404 raised by the share lookup. *)
Definition NotFound : error := HTTPException 404 "Share not found".

(** [a <= b] on datetimes. *)
Definition dt_le (a b : datetime) : result bool :=
  match dt_compare a b with
  | Some Gt => Ok false
  | Some _ => Ok true
  | None => Raise TypeError
  end.

(** ** Schemas ([schemas.py]) and endpoint input models ([main.py]) *)

(** Membership in a [Literal[...]] of strings. *)
Definition in_literal (s : string) (allowed : list string) : bool :=
  existsb (String.eqb s) allowed.

(** [Transaction]: every field as declared; [type] is a
    [Literal["income", "expense"]] checked at construction. *)
Record Transaction := {
  t_client_id : string;
  t_amount : Py.float;
  t_category : string;
  t_note : option string;
  t_date : option datetime;
  t_type : string
}.

Definition Transaction_new (client_id : string) (amount : Py.float)
    (category : string) (note : option string) (date : option datetime)
    (type : string) : result Transaction :=
  if in_literal type ["income"; "expense"]
  then Ok {| t_client_id := client_id; t_amount := amount;
             t_category := category; t_note := note; t_date := date;
             t_type := type |}
  else Raise ValidationError.

(** [Recurring]: [frequency] and [type] are literals checked at construction. *)
Record Recurring := {
  r_client_id : string;
  r_label : string;
  r_amount : Py.float;
  r_category : string;
  r_frequency : string;
  r_type : string;
  r_next_due_date : option datetime
}.

Definition Recurring_new (client_id label : string) (amount : Py.float)
    (category frequency type : string) (next_due_date : option datetime)
    : result Recurring :=
  if in_literal frequency ["daily"; "weekly"; "monthly"]
     && in_literal type ["income"; "expense"]
  then Ok {| r_client_id := client_id; r_label := label; r_amount := amount;
             r_category := category; r_frequency := frequency;
             r_type := type; r_next_due_date := next_due_date |}
  else Raise ValidationError.

Record Share := {
  s_client_id : string;
  s_token : string;
  s_created_at : option datetime
}.

(** [TransactionIn]: [type] is a plain [str]. *)
Record TransactionIn := {
  ti_client_id : string;
  ti_amount : Py.float;
  ti_category : string;
  ti_note : option string;
  ti_type : string;
  ti_date : option datetime
}.

(** [RecurringIn]: [frequency] and [type] are plain [str]. *)
Record RecurringIn := {
  ri_client_id : string;
  ri_label : string;
  ri_amount : Py.float;
  ri_category : string;
  ri_frequency : string;
  ri_type : string;
  ri_next_due_date : option datetime
}.

Record ShareCreateIn := { sci_client_id : string }.

(** ** Documents *)

(** The [_id] of a document: an object identifier in the store, its text
    once a handler has serialized it. *)
Inductive id_value :=
| ObjectId (n : N)
| IdStr (s : string).

(** [str(_id)]. *)
Definition str_id (i : id_value) : string :=
  match i with
  | ObjectId n => HexString.of_N n
  | IdStr s => s
  end.

(** A timestamp field holds a [datetime], or text once serialized. *)
Inductive time_value :=
| TDatetime (d : datetime)
| TText (s : string).

(** The documents of the three collections, typed as the schemas declare
    their fields.  The handlers read them with [d.get(key)] and
    [d.get(key, default)], so a key read that way may be absent ([None]
    below).  A date key that is present and holds [None] is not among
    these documents: no handler writes one, [create_transaction] always
    setting the date. *)
Record transaction_doc := {
  td_id : id_value;
  td_client_id : string;
  td_amount : option Py.float;
  td_category : option string;
  td_note : option string;
  td_date : option time_value;
  td_type : string;
  td_created_at : option time_value;
  td_updated_at : option time_value
}.

Record recurring_doc := {
  rd_id : id_value;
  rd_client_id : string;
  rd_label : option string;
  rd_amount : option Py.float;
  rd_category : option string;
  rd_frequency : string;
  rd_type : string;
  rd_next_due_date : option time_value
}.

Record share_doc := {
  sd_id : id_value;
  sd_client_id : string;
  sd_token : string;
  sd_created_at : option time_value
}.

(** The text fields a query filter can name. *)
Class Document (D : Type) := doc_field : D -> string -> option string.

#[export] Instance transaction_document : Document transaction_doc :=
  fun d k =>
    if String.eqb k "client_id" then Some (td_client_id d)
    else if String.eqb k "category" then td_category d
    else if String.eqb k "note" then td_note d
    else if String.eqb k "type" then Some (td_type d)
    else None.

#[export] Instance recurring_document : Document recurring_doc :=
  fun d k =>
    if String.eqb k "client_id" then Some (rd_client_id d)
    else if String.eqb k "label" then rd_label d
    else if String.eqb k "category" then rd_category d
    else if String.eqb k "frequency" then Some (rd_frequency d)
    else if String.eqb k "type" then Some (rd_type d)
    else None.

#[export] Instance share_document : Document share_doc :=
  fun d k =>
    if String.eqb k "client_id" then Some (sd_client_id d)
    else if String.eqb k "token" then Some (sd_token d)
    else None.

(** ** The document store *)

(** One list per collection, in insertion order, and the next free
    object identifier. *)
Record store := {
  transaction : list transaction_doc;
  recurring : list recurring_doc;
  share : list share_doc;
  next_oid : N
}.

Definition empty_store : store :=
  {| transaction := []; recurring := []; share := []; next_oid := 0 |}.

(** A validated model handed to [create_document]. *)
Inductive model :=
| MTransaction (t : Transaction)
| MRecurring (r : Recurring)
| MShare (s : Share).

(** [collection_name(model_cls)]: the lowercased class name. *)
Definition collection_name (m : model) : string :=
  match m with
  | MTransaction _ => "transaction"
  | MRecurring _ => "recurring"
  | MShare _ => "share"
  end.

Definition transaction_to_doc (i : id_value) (t : Transaction) : transaction_doc :=
  {| td_id := i; td_client_id := t_client_id t;
     td_amount := Some (t_amount t); td_category := Some (t_category t);
     td_note := t_note t; td_date := option_map TDatetime (t_date t);
     td_type := t_type t; td_created_at := None; td_updated_at := None |}.

Definition recurring_to_doc (i : id_value) (r : Recurring) : recurring_doc :=
  {| rd_id := i; rd_client_id := r_client_id r; rd_label := Some (r_label r);
     rd_amount := Some (r_amount r); rd_category := Some (r_category r);
     rd_frequency := r_frequency r; rd_type := r_type r;
     rd_next_due_date := option_map TDatetime (r_next_due_date r) |}.

Definition share_to_doc (i : id_value) (s : Share) : share_doc :=
  {| sd_id := i; sd_client_id := s_client_id s; sd_token := s_token s;
     sd_created_at := option_map TDatetime (s_created_at s) |}.

(** Modelled from the spec: [create_document] of the absent [database]
    module, the store's [insert(collection_name, document) -> id].  The
    document gets a fresh identifier, is appended to the collection named
    after its model class, and the identifier's text is returned. *)
Definition create_document (st : store) (m : model) : store * string :=
  let i := ObjectId (next_oid st) in
  let st' :=
    match m with
    | MTransaction t =>
        {| transaction := (transaction st ++ [transaction_to_doc i t])%list;
           recurring := recurring st; share := share st;
           next_oid := N.succ (next_oid st) |}
    | MRecurring r =>
        {| transaction := transaction st;
           recurring := (recurring st ++ [recurring_to_doc i r])%list;
           share := share st; next_oid := N.succ (next_oid st) |}
    | MShare s =>
        {| transaction := transaction st; recurring := recurring st;
           share := (share st ++ [share_to_doc i s])%list;
           next_oid := N.succ (next_oid st) |}
    end in
  (st', str_id i).

(** A query filter: the dict of field name to required value. *)
Definition filter_dict := list (string * string).

Definition matches {D} `{Document D} (filt : filter_dict) (d : D) : bool :=
  forallb (fun kv => match doc_field d (fst kv) with
                     | Some v => String.eqb v (snd kv)
                     | None => false
                     end) filt.

(** Modelled from the spec: [get_documents] of the absent [database]
    module, the store's [find(collection_name, filter, limit?)].  It
    returns the documents of the collection that match every entry of the
    filter exactly, in insertion order, and at most [limit] of them when
    a limit is given. *)
Definition get_documents {D} `{Document D} (collection : list D)
    (filt : filter_dict) (limit : option Z) : list D :=
  let found := List.filter (matches filt) collection in
  match limit with
  | None => found
  | Some n => firstn (Z.to_nat n) found
  end.

(** ** Python containers used by the handlers *)

(** [list.sort(key=key, reverse=True)]: a stable sort into descending key
    order, strings compared code unit by code unit.  An element is put
    in front of the first one whose key is not greater than its own, so
    equal keys keep their original order. *)
Section Sort.
Context {A : Type} (key : A -> string).

Fixpoint insert_desc (x : A) (l : list A) : list A :=
  match l with
  | [] => [x]
  | y :: l' =>
      if String.ltb (key x) (key y) then y :: insert_desc x l'
      else x :: y :: l'
  end.

Definition sort_desc (l : list A) : list A := fold_right insert_desc [] l.

(** [x] may stand before [y] in descending key order. *)
Definition key_ge (x y : A) : Prop := String.leb (key y) (key x) = true.
End Sort.

(** [d.setdefault(k, v)] on a dict. *)
Definition setdefault (k : string) (v : Py.number) (d : gmap string Py.number)
    : gmap string Py.number :=
  match d !! k with
  | Some _ => d
  | None => <[k := v]> d
  end.

(** [d[k] += x] on a dict that holds [k]. *)
Definition dict_iadd (k : string) (x : Py.number) (d : gmap string Py.number)
    : gmap string Py.number :=
  match d !! k with
  | Some v => <[k := Py.add v x]> d
  | None => d
  end.

(** ** The handlers ([main.py]) *)

(** [x or now] on an [Optional[datetime]]: a datetime is always truthy. *)
Definition or_now (x : option datetime) (now : datetime) : datetime :=
  match x with
  | Some d => d
  | None => now
  end.

(** [create_transaction]; [clock] is the UTC clock at the call.  In
    [amt >= 0] the int [0] compares as the float [0.0]. *)
Definition create_transaction (clock : wall_clock) (st : store)
    (payload : TransactionIn) : result (store * string) :=
  let now := utcnow clock in
  let amt := Py.fabs (ti_amount payload) in
  let amt := if String.eqb (ti_type payload) "expense" then Py.fneg amt else amt in
  let! tx := Transaction_new
               (ti_client_id payload)
               amt
               (ti_category payload)
               (ti_note payload)
               (Some (or_now (ti_date payload) now))
               (if Py.fle Py.fzero amt then "income" else "expense") in
  Ok (create_document st (MTransaction tx)).

(** The timestamp conversion of the listing loops:
    [if isinstance(v, datetime): v = v.isoformat()]. *)
Definition serialize_time (v : option time_value) : option time_value :=
  match v with
  | Some (TDatetime d) => Some (TText (isoformat d))
  | _ => v
  end.

(** The body of the serialization loop of [list_transactions]. *)
Definition serialize_transaction (d : transaction_doc) : transaction_doc :=
  {| td_id := IdStr (str_id (td_id d));
     td_client_id := td_client_id d;
     td_amount := td_amount d;
     td_category := td_category d;
     td_note := td_note d;
     td_date := serialize_time (td_date d);
     td_type := td_type d;
     td_created_at := serialize_time (td_created_at d);
     td_updated_at := serialize_time (td_updated_at d) |}.

(** [x.get("date", "")], the sort key.  The sort runs after the
    serialization loop, when no date is a [datetime] any more (lemma
    [serialize_transaction_date] below); that case is given its text. *)
Definition date_key (x : transaction_doc) : string :=
  match td_date x with
  | None => ""
  | Some (TText s) => s
  | Some (TDatetime d) => isoformat d
  end.

(** [list_transactions]; [limit] defaults to [default_limit]. *)
Definition default_limit : Z := 200.

Definition list_transactions (st : store) (client_id : string)
    (category : option string) (limit : Z) : list transaction_doc :=
  let filt := [("client_id", client_id)] in
  let filt := if Py.truthy category
              then (filt ++ [("category", default "" category)])%list
              else filt in
  let docs := get_documents (transaction st) filt (Some limit) in
  let docs := List.map serialize_transaction docs in
  sort_desc date_key docs.

(** [d.get("amount", 0)]. *)
Definition get_amount (d : transaction_doc) : Py.number :=
  match td_amount d with
  | Some f => Py.Float f
  | None => Py.Int 0
  end.

(** [get_balance], run by the interpreter [v]. *)
Definition get_balance (v : Py.cpython) (st : store) (client_id : string)
    : Py.number :=
  let docs := get_documents (transaction st) [("client_id", client_id)] None in
  Py.builtin_sum v (List.map get_amount docs).

(** [create_recurring]. *)
Definition create_recurring (clock : wall_clock) (st : store)
    (payload : RecurringIn) : result (store * string) :=
  let now := utcnow clock in
  let! rec := Recurring_new
                (ri_client_id payload)
                (ri_label payload)
                (ri_amount payload)
                (ri_category payload)
                (ri_frequency payload)
                (ri_type payload)
                (Some (or_now (ri_next_due_date payload) now)) in
  Ok (create_document st (MRecurring rec)).

(** One entry of the [due] list of [reminders]. *)
Record due_item := {
  due_label : option string;
  due_category : option string;
  due_amount : option Py.float
}.

Section Reminders.
(** [datetime.fromisoformat] of the Python library: [None] when it raises. *)
Variable fromisoformat : string -> option datetime.

(** The due date [nd_dt] the loop of [reminders] compares with [now]:
    a datetime as it is, a text parsed, and [now] when the parse raises
    (also on a missing or null field, where [fromisoformat(None)] raises). *)
Definition due_datetime (now : datetime) (nd : option time_value) : datetime :=
  match nd with
  | Some (TDatetime d) => d
  | Some (TText s) =>
      match fromisoformat s with
      | Some d => d
      | None => now
      end
  | None => now
  end.

Definition project_due (d : recurring_doc) : due_item :=
  {| due_label := rd_label d; due_category := rd_category d;
     due_amount := rd_amount d |}.

(** One pass of the loop of [reminders]; the comparison is outside the
    [try] and its [TypeError] leaves the handler. *)
Definition reminders_step (now : datetime) (due : list due_item)
    (d : recurring_doc) : result (list due_item) :=
  let nd_dt := due_datetime now (rd_next_due_date d) in
  let! is_due := dt_le nd_dt now in
  Ok (if is_due then (due ++ [project_due d])%list else due).

Fixpoint reminders_loop (now : datetime) (docs : list recurring_doc)
    (due : list due_item) : result (list due_item) :=
  match docs with
  | [] => Ok due
  | d :: docs' =>
      let! due' := reminders_step now due d in
      reminders_loop now docs' due'
  end.

(** [reminders]. *)
Definition reminders (clock : wall_clock) (st : store) (client_id : string)
    : result (list due_item) :=
  let now := utcnow clock in
  let docs := get_documents (recurring st) [("client_id", client_id)] None in
  reminders_loop now docs [].
End Reminders.

(** [create_share]; [token] is the ten hexadecimal characters drawn from
    [uuid4()]. *)
Definition create_share (clock : wall_clock) (token : string) (st : store)
    (payload : ShareCreateIn) : store * string :=
  let share := {| s_client_id := sci_client_id payload; s_token := token;
                  s_created_at := Some (utcnow clock) |} in
  (fst (create_document st (MShare share)), token).

(** The response of [get_shared_dashboard]. *)
Record dashboard := {
  dash_client_id : string;
  dash_balance : Py.number;
  dash_items : list transaction_doc;
  dash_categories : gmap string Py.number
}.

(** The serialization loop of [get_shared_dashboard]: [_id] and [date] only. *)
Definition serialize_shared (t : transaction_doc) : transaction_doc :=
  {| td_id := IdStr (str_id (td_id t));
     td_client_id := td_client_id t;
     td_amount := td_amount t;
     td_category := td_category t;
     td_note := td_note t;
     td_date := serialize_time (td_date t);
     td_type := td_type t;
     td_created_at := td_created_at t;
     td_updated_at := td_updated_at t |}.

(** [get_shared_dashboard], run by the interpreter [v]. *)
Definition get_shared_dashboard (v : Py.cpython) (st : store) (token : string)
    : result dashboard :=
  let docs := get_documents (share st) [("token", token)] (Some 1%Z) in
  match docs with
  | [] => Raise NotFound
  | d0 :: _ =>
      let client_id := sd_client_id d0 in
      let txs := get_documents (transaction st) [("client_id", client_id)] None in
      let balance := Py.builtin_sum v (List.map get_amount txs) in
      let by_cat :=
        fold_left
          (fun by_cat t =>
             let cat := default "Uncategorized" (td_category t) in
             let by_cat := setdefault cat (Py.Int 0) by_cat in
             dict_iadd cat (get_amount t) by_cat)
          txs (∅ : gmap string Py.number) in
      let items := List.map serialize_shared txs in
      Ok {| dash_client_id := client_id; dash_balance := balance;
            dash_items := items; dash_categories := by_cat |}
  end.

(** [category_totals]. *)
Definition category_totals (st : store) (client_id : string)
    : gmap string Py.number :=
  let txs := get_documents (transaction st) [("client_id", client_id)] None in
  fold_left
    (fun by_cat t =>
       let cat := default "Uncategorized" (td_category t) in
       let by_cat := setdefault cat (Py.Int 0) by_cat in
       dict_iadd cat (get_amount t) by_cat)
    txs (∅ : gmap string Py.number).

(** ** The due rule in the specification's words *)

(** The due date a record carries: a datetime as it is, a text as parsed,
    and nothing when the text does not parse or the field is missing. *)
Definition stated_due_date (fromisoformat : string -> option datetime)
    (nd : option time_value) : option datetime :=
  match nd with
  | Some (TDatetime d) => Some d
  | Some (TText s) => fromisoformat s
  | None => None
  end.

(** A record is due when its due date is at most [now]; a record without
    a readable due date is always due. *)
Definition stated_due (fromisoformat : string -> option datetime)
    (now : datetime) (d : recurring_doc) : bool :=
  match stated_due_date fromisoformat (rd_next_due_date d) with
  | Some t => match dt_compare t now with
              | Some Gt | None => false
              | Some _ => true
              end
  | None => true
  end.

(** A record whose due date can be compared with an aware [now]: the
    date is aware, or there is no readable date. *)
Definition aware_due (fromisoformat : string -> option datetime)
    (d : recurring_doc) : bool :=
  match stated_due_date fromisoformat (rd_next_due_date d) with
  | Some t => match utcoffset t with Some _ => true | None => false end
  | None => true
  end.

(** ** The selection of [list_transactions] in the specification's words *)

(** A document is listed for [client_id] and [category] when its client
    is [client_id] and, a category being given, its category is that one.
    An empty category counts as none given. *)
Definition selected (client_id : string) (category : option string)
    (d : transaction_doc) : bool :=
  String.eqb (td_client_id d) client_id &&
  match category with
  | None | Some "" => true
  | Some c => match td_category d with
              | Some c' => String.eqb c' c
              | None => false
              end
  end.

(** One pass of the accumulation loop that [category_totals] and
    [get_shared_dashboard] both run. *)
Definition by_cat_step (by_cat : gmap string Py.number) (t : transaction_doc)
    : gmap string Py.number :=
  let cat := default "Uncategorized" (td_category t) in
  let by_cat := setdefault cat (Py.Int 0) by_cat in
  dict_iadd cat (get_amount t) by_cat.

(** ** The category totals in the specification's words *)

(** The category a transaction is counted under. *)
Definition bucket (t : transaction_doc) : string :=
  default "Uncategorized" (td_category t).

(** The total of one category over a list of transactions: none when no
    transaction is counted under it, else the amounts counted under it
    added one after the other to an initial 0. *)
Definition stated_total (txs : list transaction_doc) (cat : string)
    : option Py.number :=
  match List.filter (fun t => String.eqb (bucket t) cat) txs with
  | [] => None
  | counted => Some (fold_left Py.add (List.map get_amount counted) (Py.Int 0))
  end.

(** ** Sample data *)

Module Sample.

Definition clock : wall_clock :=
  {| year := 2024; month := 3; day := 9;
     hour := 7; minute := 5; second := 0; microsecond := 0 |}.

(** The floats 50.0 and 20.0. *)
Definition f50 : Py.float := S754_finite false 7036874417766400 (-47).
Definition f20 : Py.float := S754_finite false 5629499534213120 (-48).

Definition salary : TransactionIn :=
  {| ti_client_id := "c1"; ti_amount := f50; ti_category := "Salary";
     ti_note := None; ti_type := "income"; ti_date := None |}.

Definition food : TransactionIn :=
  {| ti_client_id := "c1"; ti_amount := f20; ti_category := "Food";
     ti_note := None; ti_type := "expense"; ti_date := None |}.

(** A payload with amount [-0.0]. *)
Definition nothing : TransactionIn :=
  {| ti_client_id := "c1"; ti_amount := S754_zero true; ti_category := "Misc";
     ti_note := None; ti_type := "expense"; ti_date := None |}.

(** A payload whose type is neither literal. *)
Definition transfer : TransactionIn :=
  {| ti_client_id := "c1"; ti_amount := f20; ti_category := "Bank";
     ti_note := None; ti_type := "transfer"; ti_date := None |}.

Definition rent : RecurringIn :=
  {| ri_client_id := "c1"; ri_label := "Rent"; ri_amount := f50;
     ri_category := "Housing"; ri_frequency := "monthly";
     ri_type := "expense"; ri_next_due_date := None |}.


(** The naive datetime a payload carries when its next_due_date is sent
    as the text 2024-01-01T00:00:00, without a UTC offset, and a
    recurring payload due then. *)
Definition new_year : datetime :=
  {| wall := {| year := 2024; month := 1; day := 1;
                hour := 0; minute := 0; second := 0; microsecond := 0 |};
     utcoffset := None |}.

Definition insurance : RecurringIn :=
  {| ri_client_id := "c1"; ri_label := "Insurance"; ri_amount := f50;
     ri_category := "Housing"; ri_frequency := "monthly";
     ri_type := "expense"; ri_next_due_date := Some new_year |}.

(** The store after that payload is created. *)
Definition insurance_store : store :=
  match create_recurring clock empty_store insurance with
  | Ok (st', _) => st'
  | Raise _ => empty_store
  end.

(** The store after [rent] is created, due at the time of creation. *)
Definition rent_store : store :=
  match create_recurring clock empty_store rent with
  | Ok (st', _) => st'
  | Raise _ => empty_store
  end.

(** The store after the two creations of the scenario. *)
Definition run_create (clock : wall_clock) (st : store) (p : TransactionIn)
    : store :=
  match create_transaction clock st p with
  | Ok (st', _) => st'
  | Raise _ => st
  end.

Definition scenario_store : store :=
  fst (create_share clock "a1b2c3d4e5"
         (run_create clock (run_create clock empty_store salary) food)
         {| sci_client_id := "c1" |}).

(** The largest power of two among the floats, 2^1023 (about 8.99e307),
    and three transactions of that size: two incomes dated the 3rd and
    the 1st, and an expense dated the 2nd. *)
Definition huge : Py.float := S754_finite false 4503599627370496 971.

Definition on_day (d : N) : datetime :=
  {| wall := {| year := 2024; month := 3; day := d;
                hour := 12; minute := 0; second := 0; microsecond := 0 |};
     utcoffset := Some 0%Z |}.

Definition huge_payload (type : string) (d : N) : TransactionIn :=
  {| ti_client_id := "c1"; ti_amount := huge; ti_category := "Estate";
     ti_note := None; ti_type := type; ti_date := Some (on_day d) |}.

Definition huge_store : store :=
  run_create clock
    (run_create clock
       (run_create clock empty_store (huge_payload "income" 3))
       (huge_payload "income" 1))
    (huge_payload "expense" 2).

End Sample.

(** ** The other handlers ([main.py]) *)

(** The body of the serialization loop of [list_recurring]: [_id] and
    [next_due_date]. *)
Definition serialize_recurring (d : recurring_doc) : recurring_doc :=
  {| rd_id := IdStr (str_id (rd_id d));
     rd_client_id := rd_client_id d;
     rd_label := rd_label d;
     rd_amount := rd_amount d;
     rd_category := rd_category d;
     rd_frequency := rd_frequency d;
     rd_type := rd_type d;
     rd_next_due_date := serialize_time (rd_next_due_date d) |}.

(** [list_recurring]. *)
Definition list_recurring (st : store) (client_id : string)
    : list recurring_doc :=
  let docs := get_documents (recurring st) [("client_id", client_id)] None in
  List.map serialize_recurring docs.

(** What [hasattr(db, 'name')] and [db.name] give: no such attribute, a
    name, or an exception other than [AttributeError], which [hasattr]
    lets through. *)
Inductive name_attr :=
| NoName
| Name (s : string)
| NameRaises (msg : string).

(** The database handle [db] as [test_database] uses it: its name and
    the outcome of [list_collection_names()], the message of the
    exception ([inl]) or the names ([inr]). *)
Record database := {
  db_name : name_attr;
  db_list_collection_names : string + list string
}.

(** The response of [test_database]. *)
Record health := {
  h_backend : string;
  h_database : string;
  h_database_url : option string;
  h_database_name : option string;
  h_connection_status : string;
  h_collections : list string
}.

Definition set_database (v : string) (r : health) : health :=
  {| h_backend := h_backend r; h_database := v;
     h_database_url := h_database_url r; h_database_name := h_database_name r;
     h_connection_status := h_connection_status r;
     h_collections := h_collections r |}.

Definition set_database_url (v : string) (r : health) : health :=
  {| h_backend := h_backend r; h_database := h_database r;
     h_database_url := Some v; h_database_name := h_database_name r;
     h_connection_status := h_connection_status r;
     h_collections := h_collections r |}.

Definition set_database_name (v : string) (r : health) : health :=
  {| h_backend := h_backend r; h_database := h_database r;
     h_database_url := h_database_url r; h_database_name := Some v;
     h_connection_status := h_connection_status r;
     h_collections := h_collections r |}.

Definition set_connection_status (v : string) (r : health) : health :=
  {| h_backend := h_backend r; h_database := h_database r;
     h_database_url := h_database_url r; h_database_name := h_database_name r;
     h_connection_status := v; h_collections := h_collections r |}.

Definition set_collections (v : list string) (r : health) : health :=
  {| h_backend := h_backend r; h_database := h_database r;
     h_database_url := h_database_url r; h_database_name := h_database_name r;
     h_connection_status := h_connection_status r; h_collections := v |}.

(** [s[:n]] on a text held in UTF-8: the bytes of its first [n]
    characters.  A byte from 128 to 191 continues the character begun
    before it; every other byte begins one. *)
Definition continues_character (c : ascii) : bool :=
  (128 <=? N_of_ascii c)%N && (N_of_ascii c <? 192)%N.

Fixpoint take_characters (n : nat) (s : string) : string :=
  match s with
  | EmptyString => EmptyString
  | String c s' =>
      if continues_character c then String c (take_characters n s')
      else match n with
           | O => EmptyString
           | S n' => String c (take_characters n' s')
           end
  end.

(** [str(e)[:50]]. *)
Definition first_50 (msg : string) : string := take_characters 50 msg.

(** [test_database]; [db] is the module's handle, [None] when it was not
    initialized, and [database_url] is [os.getenv("DATABASE_URL")].  The
    response is updated field by field, so what was written before an
    exception stays. *)
Definition test_database (db : option database) (database_url : option string)
    : health :=
  let response :=
    {| h_backend := "✅ Running";
       h_database := "❌ Not Available";
       h_database_url := None;
       h_database_name := None;
       h_connection_status := "Not Connected";
       h_collections := [] |} in
  match db with
  | Some db =>
      let response := set_database "✅ Available" response in
      let response :=
        set_database_url (if Py.truthy database_url then "✅ Set" else "❌ Not Set")
          response in
      match db_name db with
      | NameRaises msg => set_database ("❌ Error: " ++ first_50 msg) response
      | attr =>
          let response :=
            set_database_name
              (match attr with Name s => s | _ => "✅ Connected" end) response in
          let response := set_connection_status "Connected" response in
          match db_list_collection_names db with
          | inr collections =>
              let response := set_collections (firstn 10 collections) response in
              set_database "✅ Connected & Working" response
          | inl msg =>
              set_database ("⚠️  Connected but Error: " ++ first_50 msg) response
          end
      end
  | None => set_database "⚠️  Available but not initialized" response
  end.

(** ** Stores the handlers build *)

(** The stores reached from the empty one by the three creating handlers. *)
Inductive reachable : store -> Prop :=
| reach_empty : reachable empty_store
| reach_transaction clock st payload st' id :
    reachable st ->
    create_transaction clock st payload = Ok (st', id) ->
    reachable st'
| reach_recurring clock st payload st' id :
    reachable st ->
    create_recurring clock st payload = Ok (st', id) ->
    reachable st'
| reach_share clock token st payload :
    reachable st ->
    reachable (fst (create_share clock token st payload)).

(** A transaction document as [create_transaction] writes it: every field
    is there, the date is a datetime, and the type is the sign of the
    amount. *)
Definition written_transaction (d : transaction_doc) : Prop :=
  exists a c t,
    td_amount d = Some a /\ td_category d = Some c /\
    td_date d = Some (TDatetime t) /\
    td_type d = (if Py.fle Py.fzero a then "income" else "expense").

(** A recurring document as [create_recurring] writes it. *)
Definition written_recurring (d : recurring_doc) : Prop :=
  (exists l a c t,
     rd_label d = Some l /\ rd_amount d = Some a /\ rd_category d = Some c /\
     rd_next_due_date d = Some (TDatetime t)) /\
  in_literal (rd_frequency d) ["daily"; "weekly"; "monthly"] = true /\
  in_literal (rd_type d) ["income"; "expense"] = true.

(** The payload with its amount negated. *)
Definition negate_amount (p : TransactionIn) : TransactionIn :=
  {| ti_client_id := ti_client_id p; ti_amount := Py.fneg (ti_amount p);
     ti_category := ti_category p; ti_note := ti_note p;
     ti_type := ti_type p; ti_date := ti_date p |}.

(** The documents of one key among a list, in their order. *)
Definition with_key {A} (key : A -> string) (k : string) (l : list A) : list A :=
  List.filter (fun x => String.eqb (key x) k) l.

(** ** More sample data *)

Module Demo.

(** A payload whose amount is NaN, sent as an income. *)
Definition not_a_number : TransactionIn :=
  {| ti_client_id := "c1"; ti_amount := S754_nan; ti_category := "Misc";
     ti_note := None; ti_type := "income"; ti_date := None |}.

(** A later reading of the clock. *)
Definition later : wall_clock :=
  {| year := 2024; month := 4; day := 1;
     hour := 0; minute := 0; second := 0; microsecond := 0 |}.

(** A database handle with twelve collections. *)
Definition twelve : database :=
  {| db_name := Name "spendings";
     db_list_collection_names :=
       inr ["a"; "b"; "c"; "d"; "e"; "f"; "g"; "h"; "i"; "j"; "k"; "l"] |}.

(** The floats 1e16 and 1.0, and a store holding an income of each. *)
Definition e16 : Py.float := Py.float_of_int 10000000000000000.
Definition one : Py.float := Py.float_of_int 1.

Definition amount_payload (type : string) (a : Py.float) : TransactionIn :=
  {| ti_client_id := "c1"; ti_amount := a; ti_category := "Misc";
     ti_note := None; ti_type := type; ti_date := None |}.

Definition big_expense : TransactionIn := amount_payload "expense" e16.

Definition compensated_store : store :=
  Sample.run_create Sample.clock
    (Sample.run_create Sample.clock empty_store (amount_payload "income" e16))
    (amount_payload "income" one).





End Demo.

(** * Properties *)

(** ** Floating-point facts used by the normalization *)

Lemma flt_zero_pos (a : Py.float) :
  Py.flt Py.fzero a = true ->
  Py.fabs a = a /\ Py.fle Py.fzero a = true /\ Py.fle Py.fzero (Py.fneg a) = false.
Proof.
  destruct a as [s | s | | s m e]; try destruct s; cbn; intros H;
    try discriminate H; repeat split; reflexivity.
Qed.

Lemma feq_zero_inv (a : Py.float) :
  Py.feq a Py.fzero = true -> exists s, a = S754_zero s.
Proof.
  destruct a as [s | s | | s m e]; try destruct s; cbn; intros H;
    try discriminate H; eauto.
Qed.

Lemma fle_zero_fabs (a : Py.float) :
  a <> S754_nan -> Py.fle Py.fzero (Py.fabs a) = true.
Proof.
  destruct a as [s | s | | s m e]; try destruct s; cbn; intros H;
    congruence.
Qed.

(** ** What [create_transaction] stores *)

(** The handler never fails: the type handed to [Transaction] is one of
    the two literals whatever the payload holds.  It appends one document
    whose amount is the normalized amount and whose type is read off the
    sign. *)
Lemma create_transaction_stores clock st p :
  let amt := if String.eqb (ti_type p) "expense"
             then Py.fneg (Py.fabs (ti_amount p)) else Py.fabs (ti_amount p) in
  exists st' d,
    create_transaction clock st p = Ok (st', str_id (td_id d)) /\
    transaction st' = (transaction st ++ [d])%list /\
    recurring st' = recurring st /\ share st' = share st /\
    td_client_id d = ti_client_id p /\
    td_amount d = Some amt /\
    td_category d = Some (ti_category p) /\
    td_date d = Some (TDatetime (or_now (ti_date p) (utcnow clock))) /\
    td_type d = (if Py.fle Py.fzero amt then "income" else "expense").
Proof.
  intros amt. unfold create_transaction. fold amt.
  destruct (Py.fle Py.fzero amt) eqn:Hsign; cbn; unfold create_document;
    eexists _, (transaction_to_doc (ObjectId (next_oid st)) _);
    (split; [reflexivity |]); cbn; repeat split; reflexivity.
Qed.

(** C1: for an amount a > 0, a payload of type "expense" is stored with
    amount -a and type "expense", and a payload of type "income" is stored
    with amount a and type "income". *)
Theorem create_transaction_normalizes clock st p :
  Py.flt Py.fzero (ti_amount p) = true ->
  exists st' d,
    create_transaction clock st p = Ok (st', str_id (td_id d)) /\
    transaction st' = (transaction st ++ [d])%list /\
    (ti_type p = "expense" ->
       td_amount d = Some (Py.fneg (ti_amount p)) /\ td_type d = "expense") /\
    (ti_type p = "income" ->
       td_amount d = Some (ti_amount p) /\ td_type d = "income").
Proof.
  intros Hpos.
  destruct (flt_zero_pos _ Hpos) as (Habs & Hle & Hneg).
  destruct (create_transaction_stores clock st p)
    as (st' & d & Hrun & Htx & _ & _ & _ & Hamt & _ & _ & Hty).
  exists st', d. split; [exact Hrun |]. split; [exact Htx |].
  rewrite Habs in Hamt, Hty.
  split; intros Heq; rewrite Heq in Hamt, Hty; cbn in Hamt, Hty.
  - rewrite Hneg in Hty. auto.
  - rewrite Hle in Hty. auto.
Qed.

(** C2: a payload whose amount is zero is stored with type "income",
    whatever type it supplies. *)
Theorem create_transaction_zero_income clock st p :
  Py.feq (ti_amount p) Py.fzero = true ->
  exists st' d,
    create_transaction clock st p = Ok (st', str_id (td_id d)) /\
    transaction st' = (transaction st ++ [d])%list /\
    td_type d = "income".
Proof.
  intros Hz. destruct (feq_zero_inv _ Hz) as [s Ha].
  destruct (create_transaction_stores clock st p)
    as (st' & d & Hrun & Htx & _ & _ & _ & _ & _ & _ & Hty).
  exists st', d. split; [exact Hrun |]. split; [exact Htx |].
  rewrite Hty, Ha.
  destruct (String.eqb (ti_type p) "expense"); reflexivity.
Qed.

Lemma create_transaction_normalizes_witness :
  Py.flt Py.fzero (ti_amount Sample.food) = true /\
  exists st' d,
    create_transaction Sample.clock empty_store Sample.food
      = Ok (st', str_id (td_id d)) /\
    transaction st' = (transaction empty_store ++ [d])%list /\
    (ti_type Sample.food = "expense" ->
       td_amount d = Some (Py.fneg (ti_amount Sample.food)) /\
       td_type d = "expense") /\
    (ti_type Sample.food = "income" ->
       td_amount d = Some (ti_amount Sample.food) /\ td_type d = "income").
Proof.
  split; [reflexivity | apply create_transaction_normalizes; reflexivity].
Defined.

Lemma create_transaction_zero_income_witness :
  Py.feq (ti_amount Sample.nothing) Py.fzero = true /\
  exists st' d,
    create_transaction Sample.clock empty_store Sample.nothing
      = Ok (st', str_id (td_id d)) /\
    transaction st' = (transaction empty_store ++ [d])%list /\
    td_type d = "income".
Proof.
  split; [reflexivity | apply create_transaction_zero_income; reflexivity].
Defined.

(** ** Payload types outside the two literals *)

(** A payload of type "transfer" is not rejected: it is stored as an
    income. *)
Lemma create_transaction_transfer_accepted :
  ti_type Sample.transfer <> "income" /\
  ti_type Sample.transfer <> "expense" /\
  create_transaction Sample.clock empty_store Sample.transfer
    <> Raise ValidationError /\
  exists st' id d,
    create_transaction Sample.clock empty_store Sample.transfer = Ok (st', id) /\
    transaction st' = [d] /\ td_type d = "income".
Proof.
  split; [discriminate |]. split; [discriminate |]. split; [discriminate |].
  eexists _, _, _. split; [reflexivity |]. split; reflexivity.
Qed.

(** C7 (amended): a payload whose type is neither "income" nor "expense"
    is not rejected.  [TransactionIn] declares the type a plain string and
    the handler only tests it against "expense", so the payload is stored
    with amount |a|, and with type "income" unless a is NaN. *)
Theorem create_transaction_unknown_type clock st p :
  ti_type p <> "income" -> ti_type p <> "expense" ->
  exists st' d,
    create_transaction clock st p = Ok (st', str_id (td_id d)) /\
    transaction st' = (transaction st ++ [d])%list /\
    td_amount d = Some (Py.fabs (ti_amount p)) /\
    (ti_amount p <> S754_nan -> td_type d = "income").
Proof.
  intros _ Hne.
  destruct (create_transaction_stores clock st p)
    as (st' & d & Hrun & Htx & _ & _ & _ & Hamt & _ & _ & Hty).
  apply String.eqb_neq in Hne. rewrite Hne in Hamt, Hty.
  exists st', d. repeat split; try assumption.
  intros Hnan. rewrite Hty, (fle_zero_fabs _ Hnan). reflexivity.
Qed.

Lemma create_transaction_unknown_type_witness :
  ti_type Sample.transfer <> "income" /\
  ti_type Sample.transfer <> "expense" /\
  exists st' d,
    create_transaction Sample.clock empty_store Sample.transfer
      = Ok (st', str_id (td_id d)) /\
    transaction st' = (transaction empty_store ++ [d])%list /\
    td_amount d = Some (Py.fabs (ti_amount Sample.transfer)) /\
    (ti_amount Sample.transfer <> S754_nan -> td_type d = "income").
Proof.
  split; [discriminate |]. split; [discriminate |].
  apply create_transaction_unknown_type; discriminate.
Defined.

(** ** What [create_recurring] stores *)


(** A payload outside the literals of [Recurring] is rejected. *)
Lemma create_recurring_rejects clock st p :
  in_literal (ri_frequency p) ["daily"; "weekly"; "monthly"] = false \/
  in_literal (ri_type p) ["income"; "expense"] = false ->
  create_recurring clock st p = Raise ValidationError.
Proof.
  intros H. unfold create_recurring, Recurring_new.
  destruct H as [H | H]; rewrite H; [| rewrite andb_false_r]; reflexivity.
Qed.



(** ** Queries on one field *)

Lemma matches_client_id_transaction cid (d : transaction_doc) :
  matches [("client_id", cid)] d = String.eqb (td_client_id d) cid.
Proof. unfold matches. cbn. apply andb_true_r. Qed.

Lemma matches_client_id_recurring cid (d : recurring_doc) :
  matches [("client_id", cid)] d = String.eqb (rd_client_id d) cid.
Proof. unfold matches. cbn. apply andb_true_r. Qed.

Lemma matches_token token (d : share_doc) :
  matches [("token", token)] d = String.eqb (sd_token d) token.
Proof. unfold matches. cbn. apply andb_true_r. Qed.

Lemma firstn_1_filter {A} (f : A -> bool) (l : list A) :
  firstn 1 (List.filter f l) =
  match List.find f l with Some x => [x] | None => [] end.
Proof.
  induction l as [| x l IH]; cbn; [reflexivity |].
  destruct (f x); [reflexivity | exact IH].
Qed.

(** The share lookup returns the first record with the token, if any. *)
Lemma share_lookup st token :
  get_documents (share st) [("token", token)] (Some 1%Z) =
  match List.find (fun s => String.eqb (sd_token s) token) (share st) with
  | Some x => [x]
  | None => []
  end.
Proof.
  unfold get_documents. change (Z.to_nat 1) with 1%nat.
  rewrite (List.filter_ext (matches [("token", token)])
             (fun s => String.eqb (sd_token s) token) (matches_token token)).
  apply firstn_1_filter.
Qed.

(** ** The empty category filter *)

(** C10: a category equal to the empty string is no filter at all: the
    listing is the one obtained with the category omitted. *)
Theorem list_transactions_empty_category st client_id limit :
  list_transactions st client_id (Some "") limit
  = list_transactions st client_id None limit.
Proof. reflexivity. Qed.

(** ** Resolving a share token *)

(** C6: the lookup fails with the 404 error exactly when no share record
    holds the token, it fails in no other way, and when a record holds the
    token it succeeds for the client of the first such record. *)
Theorem get_shared_dashboard_not_found v st token :
  (get_shared_dashboard v st token = Raise NotFound <->
   ~ exists sh, In sh (share st) /\ sd_token sh = token) /\
  (forall e, get_shared_dashboard v st token = Raise e -> e = NotFound) /\
  (forall sh,
     List.find (fun s => String.eqb (sd_token s) token) (share st) = Some sh ->
     exists d, get_shared_dashboard v st token = Ok d /\
               dash_client_id d = sd_client_id sh).
Proof.
  unfold get_shared_dashboard. rewrite share_lookup.
  destruct (List.find _ (share st)) as [x |] eqn:Hfind.
  - apply List.find_some in Hfind. destruct Hfind as [Hin Htok].
    apply String.eqb_eq in Htok.
    split; [split |]; [discriminate | |].
    + intros Hno. exfalso. apply Hno. eauto.
    + split; [discriminate |].
      intros sh [= <-]. eexists. split; reflexivity.
  - split; [split |]; [| reflexivity |].
    + intros _ (sh & Hin & Htok).
      pose proof (List.find_none _ _ Hfind sh Hin) as Hne. cbn in Hne.
      apply String.eqb_neq in Hne. contradiction.
    + split; [| discriminate]. intros e [= <-]. reflexivity.
Qed.

(** ** Category totals *)

(** C4: for the client of the share record a token resolves to (the first
    record with that token), the categories mapping of the shared
    dashboard is the mapping [category_totals] returns for that client on
    the same store. *)
Theorem category_totals_agree v st token sh client_id :
  List.find (fun s => String.eqb (sd_token s) token) (share st) = Some sh ->
  sd_client_id sh = client_id ->
  exists d, get_shared_dashboard v st token = Ok d /\
            dash_categories d = category_totals st client_id.
Proof.
  intros Hfind <-. unfold get_shared_dashboard. rewrite share_lookup, Hfind.
  eexists. split; reflexivity.
Qed.

(** ** Reminders *)

Lemma lex_refl c1 c2 : c1 = Eq -> lex c1 c2 = c2.
Proof. intros ->. reflexivity. Qed.

Lemma wall_compare_refl a : wall_compare a a = Eq.
Proof.
  unfold wall_compare. repeat rewrite (lex_refl _ _ (N.compare_refl _)).
  apply N.compare_refl.
Qed.

(** [now <= now] for the aware [now] of the handlers. *)
Lemma dt_le_utcnow clock : dt_le (utcnow clock) (utcnow clock) = Ok true.
Proof. unfold dt_le, dt_compare. cbn. rewrite wall_compare_refl. reflexivity. Qed.

(** The comparison with the aware [now] answers exactly on aware dates. *)
Lemma dt_le_now_aware t clock :
  (exists off, utcoffset t = Some off) ->
  dt_le t (utcnow clock)
  = Ok match dt_compare t (utcnow clock) with
       | Some Gt | None => false
       | Some _ => true
       end.
Proof.
  intros [off Hoff]. unfold dt_le, dt_compare. rewrite Hoff. cbn.
  destruct (Z.eqb off 0).
  - destruct (wall_compare (wall t) clock); reflexivity.
  - destruct (Z.compare _ _); reflexivity.
Qed.

Lemma dt_le_now_naive t clock :
  utcoffset t = None -> dt_le t (utcnow clock) = Raise TypeError.
Proof. intros H. unfold dt_le, dt_compare. rewrite H. reflexivity. Qed.

(** One pass of the loop on a record whose due date is aware or
    unreadable: the record is kept exactly when it is due as stated. *)
Lemma reminders_step_aware fromisoformat clock due d :
  aware_due fromisoformat d = true ->
  reminders_step fromisoformat (utcnow clock) due d
  = Ok (if stated_due fromisoformat (utcnow clock) d
        then (due ++ [project_due d])%list else due).
Proof.
  unfold aware_due, stated_due, reminders_step, due_datetime, stated_due_date.
  destruct (rd_next_due_date d) as [[t | s] |].
  - destruct (utcoffset t) as [off |] eqn:Hoff; [| discriminate]. intros _.
    rewrite (dt_le_now_aware t clock (ex_intro _ off Hoff)). reflexivity.
  - destruct (fromisoformat s) as [t |].
    + destruct (utcoffset t) as [off |] eqn:Hoff; [| discriminate]. intros _.
      rewrite (dt_le_now_aware t clock (ex_intro _ off Hoff)). reflexivity.
    + intros _. rewrite dt_le_utcnow. reflexivity.
  - intros _. rewrite dt_le_utcnow. reflexivity.
Qed.

(** One pass of the loop on a record whose due date is naive. *)
Lemma reminders_step_naive fromisoformat clock due d :
  aware_due fromisoformat d = false ->
  reminders_step fromisoformat (utcnow clock) due d = Raise TypeError.
Proof.
  unfold aware_due, reminders_step, due_datetime, stated_due_date.
  destruct (rd_next_due_date d) as [[t | s] |]; try discriminate.
  - destruct (utcoffset t) eqn:Hoff; [discriminate |]. intros _.
    rewrite (dt_le_now_naive t clock Hoff). reflexivity.
  - destruct (fromisoformat s) as [t |]; [| discriminate].
    destruct (utcoffset t) eqn:Hoff; [discriminate |]. intros _.
    rewrite (dt_le_now_naive t clock Hoff). reflexivity.
Qed.

Lemma reminders_loop_aware fromisoformat clock docs due :
  forallb (aware_due fromisoformat) docs = true ->
  reminders_loop fromisoformat (utcnow clock) docs due
  = Ok (due ++ List.map project_due
                 (List.filter (stated_due fromisoformat (utcnow clock)) docs))%list.
Proof.
  revert due. induction docs as [| d docs IH]; intros due; cbn.
  - intros _. rewrite app_nil_r. reflexivity.
  - rewrite andb_true_iff. intros [Hd Hdocs].
    rewrite (reminders_step_aware _ _ _ _ Hd). cbn. rewrite (IH _ Hdocs).
    destruct (stated_due fromisoformat (utcnow clock) d); cbn; [| reflexivity].
    rewrite <- app_assoc. reflexivity.
Qed.

Lemma reminders_loop_naive fromisoformat clock docs due :
  forallb (aware_due fromisoformat) docs = false ->
  reminders_loop fromisoformat (utcnow clock) docs due = Raise TypeError.
Proof.
  revert due. induction docs as [| d docs IH]; intros due; cbn; [discriminate |].
  destruct (aware_due fromisoformat d) eqn:Hd; cbn.
  - intros Hdocs. rewrite (reminders_step_aware _ _ _ _ Hd). cbn.
    apply IH, Hdocs.
  - intros _. rewrite (reminders_step_naive _ _ _ _ Hd). reflexivity.
Qed.

(** When every due date of the client's records is aware or unreadable,
    [reminders] returns, in store order, the projection of exactly the
    records that are due as stated. *)
Lemma reminders_aware_exactly_due fromisoformat clock st client_id :
  forallb (aware_due fromisoformat)
    (List.filter (fun d => String.eqb (rd_client_id d) client_id) (recurring st))
  = true ->
  reminders fromisoformat clock st client_id
  = Ok (List.map project_due
          (List.filter (stated_due fromisoformat (utcnow clock))
             (List.filter (fun d => String.eqb (rd_client_id d) client_id)
                (recurring st)))).
Proof.
  intros Haware. unfold reminders, get_documents.
  rewrite (List.filter_ext _ _ (matches_client_id_recurring client_id)).
  rewrite (reminders_loop_aware _ _ _ _ Haware). reflexivity.
Qed.

(** When a record of the client holds a naive due date, [reminders]
    raises [TypeError] whatever the other records are. *)
Lemma reminders_naive_raises fromisoformat clock st client_id :
  forallb (aware_due fromisoformat)
    (List.filter (fun d => String.eqb (rd_client_id d) client_id) (recurring st))
  = false ->
  reminders fromisoformat clock st client_id = Raise TypeError.
Proof.
  intros Hnaive. unfold reminders, get_documents.
  rewrite (List.filter_ext _ _ (matches_client_id_recurring client_id)).
  apply reminders_loop_naive, Hnaive.
Qed.

(** C5: on the store holding one recurring record, created from a payload
    whose next_due_date 2024-01-01T00:00:00 carries no UTC offset,
    [reminders] on 2024-03-09 does not return the record as due: the
    comparison of the naive due date with the aware current time raises
    [TypeError]. *)
Theorem reminders_naive_due_date_raises fromisoformat :
  reminders fromisoformat Sample.clock Sample.insurance_store "c1"
  = Raise TypeError.
Proof. reflexivity. Qed.

(** ** The descending stable sort *)





Lemma str_leb_ltb_false a b : String.leb b a = true -> String.ltb a b = false.
Proof.
  unfold String.ltb, String.leb. rewrite (String.compare_antisym a b).
  destruct (String.compare b a); cbn; congruence.
Qed.

Section SortFacts.
Context {A : Type} (key : A -> string).

Lemma insert_desc_perm x l : Permutation (x :: l) (insert_desc key x l).
Proof.
  induction l as [| y l IH]; cbn; [reflexivity |].
  destruct (String.ltb (key x) (key y)); [| reflexivity].
  rewrite perm_swap. apply perm_skip. exact IH.
Qed.

Lemma sort_desc_perm l : Permutation l (sort_desc key l).
Proof.
  induction l as [| x l IH]; cbn; [reflexivity |].
  rewrite <- insert_desc_perm. apply perm_skip. exact IH.
Qed.




(** The sort is stable: a list already in descending order is kept. *)
Lemma sort_desc_sorted_id l : StronglySorted (key_ge key) l -> sort_desc key l = l.
Proof.
  induction 1 as [| x l Hs IH Hall]; [reflexivity |].
  change (sort_desc key (x :: l)) with (insert_desc key x (sort_desc key l)).
  rewrite IH. destruct l as [| y l]; [reflexivity |]. cbn.
  inversion Hall as [| ? ? Hxy _]; subst.
  rewrite (str_leb_ltb_false _ _ Hxy). reflexivity.
Qed.
End SortFacts.

(** ** The serialized date key and the order of dates *)












Lemma str_compare_refl s : String.compare s s = Eq.
Proof. apply String_as_OT.cmp_eq. reflexivity. Qed.











(** ** Listing transactions *)

Lemma list_filter_selected client_id category (d : transaction_doc) :
  matches (if Py.truthy category
           then ([("client_id", client_id)] ++ [("category", default "" category)])%list
           else [("client_id", client_id)]) d
  = selected client_id category d.
Proof.
  unfold selected. destruct category as [c |].
  - destruct c as [| a c]; cbn.
    + unfold matches. cbn. reflexivity.
    + unfold matches. cbn. rewrite andb_true_r. reflexivity.
  - unfold matches. cbn. reflexivity.
Qed.

Lemma in_firstn {A} (n : nat) (l : list A) x : In x (firstn n l) -> In x l.
Proof.
  revert l. induction n as [| n IH]; intros [| y l]; cbn; try tauto.
  intros [-> | H]; auto.
Qed.

(** The listing is the sorted serialization of the selected documents the
    store returns. *)
Lemma list_transactions_unfold st client_id category limit :
  list_transactions st client_id category limit
  = sort_desc date_key
      (List.map serialize_transaction
         (firstn (Z.to_nat limit)
            (List.filter (selected client_id category) (transaction st)))).
Proof.
  unfold list_transactions, get_documents.
  rewrite (List.filter_ext _ _ (list_filter_selected client_id category)).
  reflexivity.
Qed.

(** After the serialization loop no date is a [datetime]. *)
Lemma serialize_transaction_date d :
  td_date (serialize_transaction d) = None \/
  exists s, td_date (serialize_transaction d) = Some (TText s).
Proof.
  cbn. destruct (td_date d) as [[t | s] |]; cbn; eauto.
Qed.



(** ** Balance and listing *)

Lemma get_amount_serialize d : get_amount (serialize_transaction d) = get_amount d.
Proof. reflexivity. Qed.

Lemma get_balance_unfold v st client_id :
  get_balance v st client_id
  = Py.builtin_sum v
      (List.map get_amount
         (List.filter (selected client_id None) (transaction st))).
Proof.
  unfold get_balance, get_documents.
  rewrite (List.filter_ext _ _ (matches_client_id_transaction client_id)).
  unfold selected. f_equal. f_equal. apply List.filter_ext.
  intros d. symmetry. apply andb_true_r.
Qed.

(** Two incomes of 2^1023 and one expense of 2^1023: under either
    interpreter the balance, summed in store order, overflows to
    infinity, while the amounts of the listing, summed in listed order,
    give 2^1023. *)
Lemma balance_differs_from_listed_sum :
  (Z.of_nat (length (List.filter (selected "c1" None)
                       (transaction Sample.huge_store))) < 200)%Z /\
  (forall v,
     get_balance v Sample.huge_store "c1" = Py.Float (S754_infinity false)) /\
  (forall v,
     Py.builtin_sum v
       (List.map get_amount (list_transactions Sample.huge_store "c1" None 200))
     = Py.Float Sample.huge) /\
  (forall v,
     Py.eqb (get_balance v Sample.huge_store "c1")
            (Py.builtin_sum v
               (List.map get_amount
                  (list_transactions Sample.huge_store "c1" None 200)))
     = false).
Proof.
  split; [vm_compute; reflexivity |].
  repeat split; intros []; vm_compute; reflexivity.
Qed.

(** C3 (amended): for a client with fewer stored transactions than the
    limit, the items listed without a category filter are the client's
    stored transactions, serialized, each exactly once, and the balance
    is the sum of their amount fields taken in store order; it is the sum
    in listed order whenever the listing keeps the store order, and it is
    0 when the client has no transactions. *)
Theorem balance_sums_listed_amounts v st client_id limit :
  (Z.of_nat (length (List.filter (selected client_id None) (transaction st)))
   < limit)%Z ->
  Permutation
    (list_transactions st client_id None limit)
    (List.map serialize_transaction
       (List.filter (selected client_id None) (transaction st))) /\
  get_balance v st client_id
  = Py.builtin_sum v
      (List.map get_amount
         (List.map serialize_transaction
            (List.filter (selected client_id None) (transaction st)))) /\
  (list_transactions st client_id None limit
   = List.map serialize_transaction
       (List.filter (selected client_id None) (transaction st)) ->
   get_balance v st client_id
   = Py.builtin_sum v
       (List.map get_amount (list_transactions st client_id None limit))) /\
  (List.filter (selected client_id None) (transaction st) = [] ->
   get_balance v st client_id = Py.Int 0).
Proof.
  intros Hcount. rewrite list_transactions_unfold, get_balance_unfold.
  rewrite List.firstn_all2 by lia.
  set (docs := List.filter (selected client_id None) (transaction st)).
  assert (Hamounts : List.map get_amount (List.map serialize_transaction docs)
                     = List.map get_amount docs).
  { rewrite List.map_map. apply List.map_ext. intros d. apply get_amount_serialize. }
  split; [| split; [| split]].
  - symmetry. apply sort_desc_perm.
  - rewrite Hamounts. reflexivity.
  - intros ->. rewrite Hamounts. reflexivity.
  - intros ->. destruct v; reflexivity.
Qed.

Lemma balance_sums_listed_amounts_witness :
  (Z.of_nat (length (List.filter (selected "c1" None)
                       (transaction Sample.scenario_store))) < 200)%Z /\
  Permutation
    (list_transactions Sample.scenario_store "c1" None 200)
    (List.map serialize_transaction
       (List.filter (selected "c1" None) (transaction Sample.scenario_store))) /\
  get_balance Py.From_3_12 Sample.scenario_store "c1"
  = Py.builtin_sum Py.From_3_12
      (List.map get_amount
         (List.map serialize_transaction
            (List.filter (selected "c1" None)
               (transaction Sample.scenario_store)))) /\
  (list_transactions Sample.scenario_store "c1" None 200
   = List.map serialize_transaction
       (List.filter (selected "c1" None) (transaction Sample.scenario_store)) ->
   get_balance Py.From_3_12 Sample.scenario_store "c1"
   = Py.builtin_sum Py.From_3_12
       (List.map get_amount
          (list_transactions Sample.scenario_store "c1" None 200))) /\
  (List.filter (selected "c1" None) (transaction Sample.scenario_store) = [] ->
   get_balance Py.From_3_12 Sample.scenario_store "c1" = Py.Int 0).
Proof.
  split; [vm_compute; reflexivity |].
  apply balance_sums_listed_amounts. vm_compute. reflexivity.
Defined.

Lemma category_totals_agree_witness :
  List.find (fun s => String.eqb (sd_token s) "a1b2c3d4e5")
    (share Sample.scenario_store)
  = Some {| sd_id := ObjectId 2; sd_client_id := "c1";
            sd_token := "a1b2c3d4e5";
            sd_created_at := Some (TDatetime (utcnow Sample.clock)) |} /\
  exists d, get_shared_dashboard Py.From_3_12 Sample.scenario_store "a1b2c3d4e5"
            = Ok d /\
            dash_categories d = category_totals Sample.scenario_store "c1".
Proof.
  split; [reflexivity |].
  eapply category_totals_agree; reflexivity.
Defined.

(** The effect of one pass of the accumulation loop on a lookup. *)
Lemma by_cat_step_lookup (m : gmap string Py.number) t cat :
  by_cat_step m t !! cat =
  if String.eqb (bucket t) cat
  then Some (Py.add (default (Py.Int 0) (m !! cat)) (get_amount t))
  else m !! cat.
Proof.
  unfold by_cat_step, bucket, setdefault, dict_iadd.
  set (c := default "Uncategorized" (td_category t)).
  destruct (String.eqb_spec c cat) as [-> | Hne].
  - destruct (m !! cat) as [v |] eqn:Hm.
    + rewrite Hm. cbn. apply lookup_insert_eq.
    + rewrite lookup_insert_eq. cbn. apply lookup_insert_eq.
  - destruct (m !! c) as [v |] eqn:Hm.
    + rewrite Hm. apply lookup_insert_ne. exact Hne.
    + rewrite lookup_insert_eq.
      rewrite lookup_insert_ne by exact Hne.
      apply lookup_insert_ne. exact Hne.
Qed.

Lemma by_cat_loop_lookup txs (m : gmap string Py.number) cat :
  fold_left by_cat_step txs m !! cat =
  match List.filter (fun t => String.eqb (bucket t) cat) txs with
  | [] => m !! cat
  | counted =>
      Some (fold_left Py.add (List.map get_amount counted)
              (default (Py.Int 0) (m !! cat)))
  end.
Proof.
  revert m. induction txs as [| t txs IH]; intros m; [reflexivity |].
  cbn [fold_left List.filter]. rewrite IH, by_cat_step_lookup.
  destruct (String.eqb (bucket t) cat); cbn.
  - destruct (List.filter _ txs); reflexivity.
  - reflexivity.
Qed.

(** [category_totals] maps each category to its stated total. *)
Lemma category_totals_lookup st client_id cat :
  category_totals st client_id !! cat
  = stated_total (List.filter (selected client_id None) (transaction st)) cat.
Proof.
  change (category_totals st client_id)
    with (fold_left by_cat_step
            (get_documents (transaction st) [("client_id", client_id)] None)
            (∅ : gmap string Py.number)).
  unfold get_documents, stated_total.
  rewrite (List.filter_ext _ _ (matches_client_id_transaction client_id)).
  rewrite (List.filter_ext (selected client_id None)
             (fun d => String.eqb (td_client_id d) client_id)
             (fun d => andb_true_r _)).
  rewrite by_cat_loop_lookup. rewrite lookup_empty. reflexivity.
Qed.

(** ** The scenarios *)

(** After the income of 50 the balance is 50; after the expense of 20 it
    is 30, and the totals are 50 for Salary and -20 for Food. *)
Example scenario_balance_50 v :
  get_balance v (Sample.run_create Sample.clock empty_store Sample.salary) "c1"
  = Py.Float Sample.f50.
Proof. destruct v; vm_compute; reflexivity. Qed.

Example scenario_balance_30 v :
  get_balance v Sample.scenario_store "c1" = Py.Float (Py.float_of_int 30).
Proof. destruct v; vm_compute; reflexivity. Qed.

Example scenario_category_totals :
  category_totals Sample.scenario_store "c1"
  = <["Food" := Py.Float (Py.fneg Sample.f20)]>
      (<["Salary" := Py.Float Sample.f50]> ∅).
Proof. vm_compute. reflexivity. Qed.

(** The shared dashboard of the scenario shows the balance 30. *)
Example scenario_dashboard v :
  exists d, get_shared_dashboard v Sample.scenario_store "a1b2c3d4e5" = Ok d /\
            dash_client_id d = "c1" /\
            dash_balance d = Py.Float (Py.float_of_int 30).
Proof.
  eexists. split; [reflexivity |].
  split; destruct v; vm_compute; reflexivity.
Qed.

(** Listing the category Food returns the Food transaction only. *)
Example scenario_list_food :
  List.map td_category
    (list_transactions Sample.scenario_store "c1" (Some "Food") default_limit)
  = [Some "Food"].
Proof. vm_compute. reflexivity. Qed.

(** A record created without next_due_date is due at once. *)
Example scenario_rent_due fromisoformat :
  reminders fromisoformat Sample.clock Sample.rent_store "c1"
  = Ok [{| due_label := Some "Rent"; due_category := Some "Housing";
           due_amount := Some Sample.f50 |}].
Proof. reflexivity. Qed.

(** * Further properties *)

(** ** The sign of the payload's amount *)

Lemma fabs_fneg (a : Py.float) : Py.fabs (Py.fneg a) = Py.fabs a.
Proof. destruct a; reflexivity. Qed.

(** X1: [create_transaction] ignores the sign of the amount it is sent:
    a payload and the same payload with the amount negated are handled
    alike, the type alone choosing the sign that is stored. *)
Theorem create_transaction_ignores_sign clock st p :
  create_transaction clock st (negate_amount p) = create_transaction clock st p.
Proof.
  unfold create_transaction, negate_amount. cbn [ti_amount ti_type ti_client_id
    ti_category ti_note ti_date].
  rewrite fabs_fneg. reflexivity.
Qed.

(** ** Balance and totals after a creation *)

Lemma sum_snoc xs x : Py.sum (xs ++ [x])%list = Py.add (Py.sum xs) x.
Proof. unfold Py.sum. rewrite fold_left_app. reflexivity. Qed.

Lemma selected_none client_id (d : transaction_doc) :
  selected client_id None d = String.eqb (td_client_id d) client_id.
Proof. unfold selected. apply andb_true_r. Qed.

Lemma client_transactions st client_id :
  get_documents (transaction st) [("client_id", client_id)] None
  = List.filter (fun d => String.eqb (td_client_id d) client_id) (transaction st).
Proof.
  unfold get_documents.
  apply (List.filter_ext _ _ (matches_client_id_transaction client_id)).
Qed.

Lemma client_transactions_snoc st st' d client_id :
  transaction st' = (transaction st ++ [d])%list ->
  get_documents (transaction st') [("client_id", client_id)] None
  = (get_documents (transaction st) [("client_id", client_id)] None
     ++ (if String.eqb (td_client_id d) client_id then [d] else []))%list.
Proof.
  intros Htx. rewrite !client_transactions, Htx, List.filter_app. cbn.
  destruct (String.eqb (td_client_id d) client_id); reflexivity.
Qed.

Lemma get_balance_snoc v st st' d client_id :
  transaction st' = (transaction st ++ [d])%list ->
  get_balance v st' client_id
  = if String.eqb (td_client_id d) client_id
    then Py.builtin_sum v
           (List.map get_amount
              (get_documents (transaction st) [("client_id", client_id)] None)
            ++ [get_amount d])%list
    else get_balance v st client_id.
Proof.
  intros Htx. unfold get_balance.
  rewrite (client_transactions_snoc st st' d _ Htx).
  destruct (String.eqb (td_client_id d) client_id).
  - rewrite List.map_app. reflexivity.
  - rewrite app_nil_r. reflexivity.
Qed.

(** X2: after [create_transaction], the balance of the payload's client
    is the sum of the client's amounts before, in store order, followed
    by the normalized amount (minus |a| for an expense, |a| otherwise);
    under the plain sum of an interpreter before CPython 3.12 that is the
    balance before plus the normalized amount; and the balance of every
    other client is what it was, under either interpreter. *)
Theorem balance_after_create_transaction v clock st p :
  exists st' id,
    create_transaction clock st p = Ok (st', id) /\
    get_balance v st' (ti_client_id p)
    = Py.builtin_sum v
        (List.map get_amount
           (get_documents (transaction st)
              [("client_id", ti_client_id p)] None)
         ++ [Py.Float (if String.eqb (ti_type p) "expense"
                       then Py.fneg (Py.fabs (ti_amount p))
                       else Py.fabs (ti_amount p))])%list /\
    (v = Py.Before_3_12 ->
     get_balance v st' (ti_client_id p)
     = Py.add (get_balance v st (ti_client_id p))
         (Py.Float (if String.eqb (ti_type p) "expense"
                    then Py.fneg (Py.fabs (ti_amount p))
                    else Py.fabs (ti_amount p)))) /\
    (forall client_id, client_id <> ti_client_id p ->
       get_balance v st' client_id = get_balance v st client_id).
Proof.
  destruct (create_transaction_stores clock st p)
    as (st' & d & Hrun & Htx & _ & _ & Hclient & Hamt & _).
  assert (Hbal : get_balance v st' (ti_client_id p)
                 = Py.builtin_sum v
                     (List.map get_amount
                        (get_documents (transaction st)
                           [("client_id", ti_client_id p)] None)
                      ++ [Py.Float (if String.eqb (ti_type p) "expense"
                                    then Py.fneg (Py.fabs (ti_amount p))
                                    else Py.fabs (ti_amount p))])%list).
  { rewrite (get_balance_snoc v st st' d _ Htx), Hclient, String.eqb_refl.
    unfold get_amount. rewrite Hamt. reflexivity. }
  exists st', (str_id (td_id d)). split; [exact Hrun |].
  split; [exact Hbal |]. split.
  - intros ->. rewrite Hbal. cbn [Py.builtin_sum]. apply sum_snoc.
  - intros client_id Hne.
    rewrite (get_balance_snoc v st st' d _ Htx), Hclient.
    apply not_eq_sym, String.eqb_neq in Hne. rewrite Hne. reflexivity.
Qed.

(** Under the compensated sum of CPython 3.12 the balance after a
    creation need not be the balance before plus the amount: with incomes
    of 1e16 and 1.0 stored, the balance is 1e16, and after an expense of
    1e16 it is 1.0, not 0.0. *)
Example balance_after_create_compensated :
  get_balance Py.From_3_12 Demo.compensated_store "c1" = Py.Float Demo.e16 /\
  get_balance Py.From_3_12
    (Sample.run_create Sample.clock Demo.compensated_store Demo.big_expense) "c1"
  = Py.Float Demo.one /\
  Py.add (get_balance Py.From_3_12 Demo.compensated_store "c1")
    (Py.Float (Py.fneg (Py.fabs (ti_amount Demo.big_expense))))
  = Py.Float Py.fzero /\
  get_balance Py.Before_3_12
    (Sample.run_create Sample.clock Demo.compensated_store Demo.big_expense) "c1"
  = Py.Float Py.fzero.
Proof. repeat split; vm_compute; reflexivity. Qed.

Lemma category_totals_fold st client_id :
  category_totals st client_id
  = fold_left by_cat_step
      (get_documents (transaction st) [("client_id", client_id)] None)
      (∅ : gmap string Py.number).
Proof. reflexivity. Qed.

(** X3: after [create_transaction], the total of the payload's category
    for its client is the total before (0 when the category was new)
    plus the normalized amount, the totals of its other categories are
    what they were, and so are the totals of every other client. *)
Theorem category_totals_after_create_transaction clock st p :
  exists st' id,
    create_transaction clock st p = Ok (st', id) /\
    category_totals st' (ti_client_id p) !! ti_category p
    = Some (Py.add
              (default (Py.Int 0)
                 (category_totals st (ti_client_id p) !! ti_category p))
              (Py.Float (if String.eqb (ti_type p) "expense"
                         then Py.fneg (Py.fabs (ti_amount p))
                         else Py.fabs (ti_amount p)))) /\
    (forall cat, cat <> ti_category p ->
       category_totals st' (ti_client_id p) !! cat
       = category_totals st (ti_client_id p) !! cat) /\
    (forall client_id, client_id <> ti_client_id p ->
       category_totals st' client_id = category_totals st client_id).
Proof.
  destruct (create_transaction_stores clock st p)
    as (st' & d & Hrun & Htx & _ & _ & Hclient & Hamt & Hcat & _).
  exists st', (str_id (td_id d)). split; [exact Hrun |].
  assert (Hbucket : bucket d = ti_category p)
    by (unfold bucket; rewrite Hcat; reflexivity).
  assert (Hget : get_amount d
                 = Py.Float (if String.eqb (ti_type p) "expense"
                             then Py.fneg (Py.fabs (ti_amount p))
                             else Py.fabs (ti_amount p)))
    by (unfold get_amount; rewrite Hamt; reflexivity).
  split; [| split].
  - rewrite !category_totals_fold.
    rewrite (client_transactions_snoc st st' d _ Htx), Hclient, String.eqb_refl.
    rewrite fold_left_app. cbn [fold_left].
    rewrite by_cat_step_lookup, Hbucket, String.eqb_refl, Hget. reflexivity.
  - intros cat Hne. rewrite !category_totals_fold.
    rewrite (client_transactions_snoc st st' d _ Htx), Hclient, String.eqb_refl.
    rewrite fold_left_app. cbn [fold_left].
    rewrite by_cat_step_lookup, Hbucket.
    apply not_eq_sym, String.eqb_neq in Hne. rewrite Hne. reflexivity.
  - intros client_id Hne. rewrite !category_totals_fold.
    rewrite (client_transactions_snoc st st' d _ Htx), Hclient.
    apply not_eq_sym, String.eqb_neq in Hne. rewrite Hne, app_nil_r.
    reflexivity.
Qed.

(** ** A NaN amount *)

Lemma fadd_nan_r (x : Py.float) : Py.fadd x S754_nan = S754_nan.
Proof. destruct x; reflexivity. Qed.

Lemma add_nan_r (x : Py.number) : Py.add x (Py.Float S754_nan) = Py.Float S754_nan.
Proof. destruct x; cbn; rewrite fadd_nan_r; reflexivity. Qed.

Lemma fadd_nan_l (x : Py.float) : Py.fadd S754_nan x = S754_nan.
Proof. destruct x; reflexivity. Qed.

Lemma fsub_nan_l (x : Py.float) : Py.fsub S754_nan x = S754_nan.
Proof. destruct x; reflexivity. Qed.

Lemma neumaier_step_nan acc :
  Py.neumaier_step acc (Py.Float S754_nan) = (S754_nan, S754_nan).
Proof.
  destruct acc as [f_result c]. cbn [Py.neumaier_step].
  destruct (Py.fle _ _);
    rewrite ?fadd_nan_r, ?fsub_nan_l, ?fadd_nan_l, ?fadd_nan_r; reflexivity.
Qed.

Lemma sum_from_nan xs : forall i,
  Py.sum_from i (xs ++ [Py.Float S754_nan])%list = Py.Float S754_nan.
Proof.
  induction xs as [| x xs IH]; intros i.
  - cbn. rewrite fadd_nan_r. reflexivity.
  - destruct x as [z | f]; cbn [app Py.sum_from]; [apply IH |].
    rewrite fold_left_app. cbn [fold_left].
    rewrite neumaier_step_nan. reflexivity.
Qed.

(** A sum whose last term is NaN is NaN, under either interpreter. *)
Lemma builtin_sum_nan v xs :
  Py.builtin_sum v (xs ++ [Py.Float S754_nan])%list = Py.Float S754_nan.
Proof.
  destruct v; cbn [Py.builtin_sum].
  - rewrite sum_snoc. apply add_nan_r.
  - apply sum_from_nan.
Qed.

(** X4: a payload whose amount is NaN is not rejected: it is stored with
    amount NaN and type "expense" whatever type it supplies, and the
    balance of its client is NaN from then on. *)
Theorem create_transaction_nan v clock st p :
  ti_amount p = S754_nan ->
  exists st' d,
    create_transaction clock st p = Ok (st', str_id (td_id d)) /\
    transaction st' = (transaction st ++ [d])%list /\
    td_amount d = Some S754_nan /\
    td_type d = "expense" /\
    get_balance v st' (ti_client_id p) = Py.Float S754_nan.
Proof.
  intros Hnan.
  destruct (create_transaction_stores clock st p)
    as (st' & d & Hrun & Htx & _ & _ & Hclient & Hamt & _ & _ & Hty).
  rewrite Hnan in Hamt, Hty.
  assert (Hamt' : td_amount d = Some S754_nan)
    by (rewrite Hamt; destruct (String.eqb (ti_type p) "expense"); reflexivity).
  exists st', d. repeat split; try assumption.
  - rewrite Hty. destruct (String.eqb (ti_type p) "expense"); reflexivity.
  - rewrite (get_balance_snoc v st st' d _ Htx), Hclient, String.eqb_refl.
    unfold get_amount at 2. rewrite Hamt'. apply builtin_sum_nan.
Qed.

Lemma create_transaction_nan_witness :
  ti_amount Demo.not_a_number = S754_nan /\
  exists st' d,
    create_transaction Sample.clock Sample.scenario_store Demo.not_a_number
      = Ok (st', str_id (td_id d)) /\
    transaction st' = (transaction Sample.scenario_store ++ [d])%list /\
    td_amount d = Some S754_nan /\
    td_type d = "expense" /\
    get_balance Py.From_3_12 st' (ti_client_id Demo.not_a_number)
    = Py.Float S754_nan.
Proof.
  split; [reflexivity | apply create_transaction_nan; reflexivity].
Defined.

(** ** Documents of the stores the handlers build *)

Lemma create_transaction_inv clock st p st' id :
  create_transaction clock st p = Ok (st', id) ->
  exists d,
    transaction st' = (transaction st ++ [d])%list /\
    recurring st' = recurring st /\ share st' = share st /\
    written_transaction d.
Proof.
  intros Hrun.
  destruct (create_transaction_stores clock st p)
    as (st'' & d & Hrun' & Htx & Hrec & Hsh & _ & Hamt & Hcat & Hdate & Hty).
  rewrite Hrun in Hrun'. injection Hrun' as -> _.
  exists d. repeat split; try assumption.
  eexists _, _, _. repeat split; eassumption.
Qed.

Lemma create_recurring_inv clock st p st' id :
  create_recurring clock st p = Ok (st', id) ->
  exists d,
    recurring st' = (recurring st ++ [d])%list /\
    transaction st' = transaction st /\ share st' = share st /\
    id = str_id (rd_id d) /\
    rd_id d = ObjectId (next_oid st) /\
    rd_client_id d = ri_client_id p /\
    rd_label d = Some (ri_label p) /\
    rd_amount d = Some (ri_amount p) /\
    rd_category d = Some (ri_category p) /\
    rd_frequency d = ri_frequency p /\
    rd_type d = ri_type p /\
    rd_next_due_date d
    = Some (TDatetime (or_now (ri_next_due_date p) (utcnow clock))) /\
    in_literal (ri_frequency p) ["daily"; "weekly"; "monthly"] = true /\
    in_literal (ri_type p) ["income"; "expense"] = true.
Proof.
  unfold create_recurring, Recurring_new.
  destruct (in_literal (ri_frequency p) _) eqn:Hf;
    [| discriminate].
  destruct (in_literal (ri_type p) _) eqn:Ht; [| discriminate].
  cbn. unfold create_document. intros [= <- <-].
  eexists (recurring_to_doc (ObjectId (next_oid st)) _).
  cbn. repeat split; reflexivity.
Qed.

(** X5: in every store the creating handlers can build from the empty
    one, each transaction document holds an amount, a category and a
    datetime date, with type "income" exactly when the amount is >= 0 and
    "expense" otherwise, and each recurring document holds its label,
    amount, category and a datetime due date, with frequency and type
    among the literals of the schema. *)
Theorem reachable_documents_written st :
  reachable st ->
  Forall written_transaction (transaction st) /\
  Forall written_recurring (recurring st).
Proof.
  induction 1 as [| clock st p st' id _ [IHt IHr] Hrun
                  | clock st p st' id _ [IHt IHr] Hrun
                  | clock token st p _ [IHt IHr]].
  - split; constructor.
  - destruct (create_transaction_inv _ _ _ _ _ Hrun) as (d & Htx & Hrec & _ & Hd).
    rewrite Htx, Hrec. split; [| exact IHr].
    apply Forall_app. split; [exact IHt | constructor; [exact Hd | constructor]].
  - destruct (create_recurring_inv _ _ _ _ _ Hrun)
      as (d & Hrec & Htx & _ & _ & _ & _ & Hl & Ha & Hc & Hf & Hty & Hnd & Hfl & Htl).
    rewrite Htx, Hrec. split; [exact IHt |].
    apply Forall_app. split; [exact IHr |]. constructor; [| constructor].
    split; [| split].
    + eexists _, _, _, _. repeat split; eassumption.
    + rewrite Hf. exact Hfl.
    + rewrite Hty. exact Htl.
  - split; assumption.
Qed.

Lemma scenario_reachable : reachable Sample.scenario_store.
Proof.
  apply reach_share.
  eapply (reach_transaction Sample.clock _ Sample.food); [| reflexivity].
  eapply (reach_transaction Sample.clock _ Sample.salary); [| reflexivity].
  apply reach_empty.
Defined.

Lemma reachable_documents_written_witness :
  reachable Sample.scenario_store /\
  Forall written_transaction (transaction Sample.scenario_store) /\
  Forall written_recurring (recurring Sample.scenario_store).
Proof.
  split; [exact scenario_reachable |].
  apply reachable_documents_written. exact scenario_reachable.
Defined.

(** ** Share tokens *)

Lemma find_snoc {A} (f : A -> bool) (l : list A) (x : A) :
  List.find f (l ++ [x])
  = match List.find f l with
    | Some y => Some y
    | None => if f x then Some x else None
    end.
Proof.
  induction l as [| y l IH]; cbn; [reflexivity |].
  destruct (f y); [reflexivity | exact IH].
Qed.

(** The dashboard for the client of a share record. *)
Lemma get_shared_dashboard_found v st token sh :
  List.find (fun s => String.eqb (sd_token s) token) (share st) = Some sh ->
  get_shared_dashboard v st token
  = Ok {| dash_client_id := sd_client_id sh;
          dash_balance := get_balance v st (sd_client_id sh);
          dash_items :=
            List.map serialize_shared
              (get_documents (transaction st)
                 [("client_id", sd_client_id sh)] None);
          dash_categories := category_totals st (sd_client_id sh) |}.
Proof.
  intros Hfind. unfold get_shared_dashboard. rewrite share_lookup, Hfind.
  reflexivity.
Qed.

Lemma get_shared_dashboard_ok_inv v st token d :
  get_shared_dashboard v st token = Ok d ->
  exists sh,
    List.find (fun s => String.eqb (sd_token s) token) (share st) = Some sh.
Proof.
  unfold get_shared_dashboard. rewrite share_lookup.
  destruct (List.find _ (share st)) as [sh |]; [eauto | discriminate].
Qed.

(** X6: in a shared dashboard the balance is the balance [get_balance]
    gives for the dashboard's client, and it is exactly the sum of the
    amount fields of the dashboard's own items, which are the client's
    transactions in store order, one item each. *)
Theorem shared_dashboard_balance v st token d :
  get_shared_dashboard v st token = Ok d ->
  dash_balance d = get_balance v st (dash_client_id d) /\
  dash_balance d = Py.builtin_sum v (List.map get_amount (dash_items d)) /\
  List.map td_amount (dash_items d)
  = List.map td_amount
      (List.filter (fun t => String.eqb (td_client_id t) (dash_client_id d))
         (transaction st)).
Proof.
  intros Hok. destruct (get_shared_dashboard_ok_inv _ _ _ _ Hok) as [sh Hfind].
  rewrite (get_shared_dashboard_found _ _ _ _ Hfind) in Hok.
  injection Hok as <-. cbn [dash_balance dash_client_id dash_items].
  split; [reflexivity |]. split.
  - unfold get_balance. rewrite List.map_map. reflexivity.
  - rewrite (List.filter_ext _ _ (matches_client_id_transaction (sd_client_id sh))).
    rewrite List.map_map. reflexivity.
Qed.

Lemma shared_dashboard_balance_witness :
  exists d,
    get_shared_dashboard Py.From_3_12 Sample.scenario_store "a1b2c3d4e5"
    = Ok d /\
    dash_balance d
    = get_balance Py.From_3_12 Sample.scenario_store (dash_client_id d) /\
    dash_balance d
    = Py.builtin_sum Py.From_3_12 (List.map get_amount (dash_items d)) /\
    List.map td_amount (dash_items d)
    = List.map td_amount
        (List.filter (fun t => String.eqb (td_client_id t) (dash_client_id d))
           (transaction Sample.scenario_store)).
Proof.
  eexists. split; [reflexivity |].
  apply (shared_dashboard_balance Py.From_3_12 Sample.scenario_store
           "a1b2c3d4e5").
  reflexivity.
Defined.

(** X7: a share created under a token that no share record holds yet
    resolves: [create_share] returns that token, and
    [get_shared_dashboard] on it succeeds for the payload's client. *)
Theorem create_share_resolves v clock token st p :
  (forall sh, In sh (share st) -> sd_token sh <> token) ->
  snd (create_share clock token st p) = token /\
  exists d,
    get_shared_dashboard v (fst (create_share clock token st p)) token = Ok d /\
    dash_client_id d = sci_client_id p.
Proof.
  intros Hfresh. split; [reflexivity |].
  assert (Hfind :
    List.find (fun s => String.eqb (sd_token s) token)
      (share (fst (create_share clock token st p)))
    = Some (share_to_doc (ObjectId (next_oid st))
              {| s_client_id := sci_client_id p; s_token := token;
                 s_created_at := Some (utcnow clock) |})).
  { cbn [create_share create_document fst share]. rewrite find_snoc.
    destruct (List.find _ (share st)) as [sh |] eqn:Hfind.
    - apply List.find_some in Hfind. destruct Hfind as [Hin Htok].
      apply String.eqb_eq in Htok. destruct (Hfresh sh Hin Htok).
    - cbn. rewrite String.eqb_refl. reflexivity. }
  eexists. split; [exact (get_shared_dashboard_found _ _ _ _ Hfind) | reflexivity].
Qed.

Lemma create_share_resolves_witness :
  (forall sh, In sh (share empty_store) -> sd_token sh <> "a1b2c3d4e5") /\
  snd (create_share Sample.clock "a1b2c3d4e5" empty_store
         {| sci_client_id := "c1" |}) = "a1b2c3d4e5" /\
  exists d,
    get_shared_dashboard Py.From_3_12
      (fst (create_share Sample.clock "a1b2c3d4e5" empty_store
              {| sci_client_id := "c1" |})) "a1b2c3d4e5" = Ok d /\
    dash_client_id d = sci_client_id {| sci_client_id := "c1" |}.
Proof.
  split; [intros sh [] |].
  apply create_share_resolves. intros sh [].
Defined.

(** X8: a token that resolves keeps its dashboard when a share is
    created afterwards under another token, whatever the new share's
    client: creating a share disturbs no other token. *)
Theorem create_share_keeps_earlier v clock token' st p token d :
  token' <> token ->
  get_shared_dashboard v st token = Ok d ->
  get_shared_dashboard v (fst (create_share clock token' st p)) token = Ok d.
Proof.
  intros Hne Hok.
  destruct (get_shared_dashboard_ok_inv _ _ _ _ Hok) as [sh Hfind].
  assert (Hfind' :
    List.find (fun s => String.eqb (sd_token s) token)
      (share (fst (create_share clock token' st p))) = Some sh).
  { cbn [create_share create_document fst share]. rewrite find_snoc, Hfind.
    reflexivity. }
  rewrite <- Hok, (get_shared_dashboard_found _ _ _ _ Hfind),
    (get_shared_dashboard_found _ _ _ _ Hfind'). reflexivity.
Qed.

Lemma create_share_keeps_earlier_witness :
  "f6g7h8i9j0" <> "a1b2c3d4e5" /\
  exists d,
    get_shared_dashboard Py.From_3_12 Sample.scenario_store "a1b2c3d4e5"
    = Ok d /\
    get_shared_dashboard Py.From_3_12
      (fst (create_share Demo.later "f6g7h8i9j0" Sample.scenario_store
              {| sci_client_id := "c2" |})) "a1b2c3d4e5" = Ok d.
Proof.
  split; [apply String.eqb_neq; reflexivity |].
  eexists. split; [reflexivity |].
  apply create_share_keeps_earlier;
    [apply String.eqb_neq; reflexivity | reflexivity].
Defined.

(** ** Recurring records *)

Lemma in_literal_In s allowed : in_literal s allowed = true <-> In s allowed.
Proof.
  unfold in_literal. rewrite existsb_exists. split.
  - intros (x & Hin & Heq). apply String.eqb_eq in Heq. subst x. exact Hin.
  - intros Hin. exists s. split; [exact Hin | apply String.eqb_refl].
Qed.

(** X9: [create_recurring] fails exactly when the frequency is none of
    "daily", "weekly", "monthly" or the type is none of "income",
    "expense"; the failure is the validation error of the [Recurring]
    schema and no other. *)
Theorem create_recurring_fails_iff clock st p :
  (create_recurring clock st p = Raise ValidationError <->
   ~ (In (ri_frequency p) ["daily"; "weekly"; "monthly"] /\
      In (ri_type p) ["income"; "expense"])) /\
  (forall e, create_recurring clock st p = Raise e -> e = ValidationError).
Proof.
  rewrite <- !in_literal_In. unfold create_recurring, Recurring_new.
  destruct (in_literal (ri_frequency p) _), (in_literal (ri_type p) _); cbn;
    (split; [split |]); try discriminate; try tauto;
    try (intros _ [H1 H2]; discriminate);
    try (intros e [= <-]; reflexivity).
Qed.

Lemma client_recurring st client_id :
  get_documents (recurring st) [("client_id", client_id)] None
  = List.filter (fun d => String.eqb (rd_client_id d) client_id) (recurring st).
Proof.
  unfold get_documents.
  apply (List.filter_ext _ _ (matches_client_id_recurring client_id)).
Qed.

Lemma forallb_false {A} (f : A -> bool) (l : list A) :
  forallb f l = false <-> exists x, In x l /\ f x = false.
Proof.
  induction l as [| y l IH]; cbn.
  - split; [discriminate | intros (x & [] & _)].
  - rewrite andb_false_iff, IH. split.
    + intros [Hy | (x & Hin & Hx)]; eauto.
    + intros (x & [-> | Hin] & Hx); eauto.
Qed.

(** A record that cannot be compared with the current time holds a due
    date it can read and that date is naive. *)
Lemma aware_due_false fromisoformat d :
  aware_due fromisoformat d = false <->
  exists t, stated_due_date fromisoformat (rd_next_due_date d) = Some t /\
            utcoffset t = None.
Proof.
  unfold aware_due.
  destruct (stated_due_date fromisoformat (rd_next_due_date d)) as [t |].
  - destruct (utcoffset t) as [off |] eqn:Hoff.
    + split; [discriminate |]. intros (t' & [= <-] & Hnone). congruence.
    + split; [eauto | reflexivity].
  - split; [discriminate | intros (t & Habs & _); discriminate].
Qed.

(** X10: [reminders] fails exactly when a recurring record of the client
    holds a due date without UTC offset, as a datetime or as a text that
    parses to one; it then raises [TypeError], and it raises nothing
    else. *)
Theorem reminders_fails_iff fromisoformat clock st client_id :
  (reminders fromisoformat clock st client_id = Raise TypeError <->
   exists d t,
     In d (recurring st) /\ rd_client_id d = client_id /\
     stated_due_date fromisoformat (rd_next_due_date d) = Some t /\
     utcoffset t = None) /\
  (forall e, reminders fromisoformat clock st client_id = Raise e ->
     e = TypeError).
Proof.
  destruct (forallb (aware_due fromisoformat)
              (List.filter (fun d => String.eqb (rd_client_id d) client_id)
                 (recurring st))) eqn:Haware.
  - rewrite (reminders_aware_exactly_due _ _ _ _ Haware).
    split; [split |]; try discriminate.
    intros (d & t & Hin & Hclient & Hdate & Hnaive). exfalso.
    assert (Hd : aware_due fromisoformat d = true).
    { rewrite forallb_forall in Haware. apply Haware.
      apply List.filter_In. split; [exact Hin |].
      apply String.eqb_eq, Hclient. }
    assert (Hd' : aware_due fromisoformat d = false)
      by (apply aware_due_false; eauto).
    congruence.
  - rewrite (reminders_naive_raises _ _ _ _ Haware).
    split; [split |].
    + intros _. apply forallb_false in Haware.
      destruct Haware as (d & Hin & Hd).
      apply List.filter_In in Hin. destruct Hin as [Hin Hclient].
      apply String.eqb_eq in Hclient.
      apply aware_due_false in Hd. destruct Hd as (t & Hdate & Hnaive).
      exists d, t. auto.
    + reflexivity.
    + intros e [= <-]. reflexivity.
Qed.

Lemma no_naive_due_date fromisoformat (docs : list recurring_doc) client_id :
  (forall d t,
     In d docs -> rd_client_id d = client_id ->
     stated_due_date fromisoformat (rd_next_due_date d) = Some t ->
     utcoffset t <> None) ->
  forallb (aware_due fromisoformat)
    (List.filter (fun d => String.eqb (rd_client_id d) client_id) docs) = true.
Proof.
  intros Haware. apply forallb_forall. intros d Hd.
  apply List.filter_In in Hd. destruct Hd as [Hin Hclient].
  apply String.eqb_eq in Hclient.
  destruct (aware_due fromisoformat d) eqn:Hd; [reflexivity |].
  apply aware_due_false in Hd. destruct Hd as (t & Hdate & Hnaive).
  destruct (Haware d t Hin Hclient Hdate Hnaive).
Qed.

(** X11: when no due date of the client's recurring records is naive,
    [reminders] succeeds and returns, in store order, the label, category
    and amount of exactly the client's records that are due: those whose
    due date is at most the current time and those whose due date cannot
    be read. *)
Theorem reminders_returns_due fromisoformat clock st client_id :
  (forall d t,
     In d (recurring st) -> rd_client_id d = client_id ->
     stated_due_date fromisoformat (rd_next_due_date d) = Some t ->
     utcoffset t <> None) ->
  reminders fromisoformat clock st client_id
  = Ok (List.map project_due
          (List.filter (stated_due fromisoformat (utcnow clock))
             (List.filter (fun d => String.eqb (rd_client_id d) client_id)
                (recurring st)))).
Proof.
  intros Haware. apply reminders_aware_exactly_due.
  apply no_naive_due_date, Haware.
Qed.

Lemma reminders_returns_due_witness :
  (forall d t,
     In d (recurring Sample.rent_store) -> rd_client_id d = "c1" ->
     stated_due_date (fun _ => None) (rd_next_due_date d) = Some t ->
     utcoffset t <> None) /\
  reminders (fun _ => None) Demo.later Sample.rent_store "c1"
  = Ok (List.map project_due
          (List.filter (stated_due (fun _ => None) (utcnow Demo.later))
             (List.filter (fun d => String.eqb (rd_client_id d) "c1")
                (recurring Sample.rent_store)))).
Proof.
  assert (H : forall d t,
     In d (recurring Sample.rent_store) -> rd_client_id d = "c1" ->
     stated_due_date (fun _ => None) (rd_next_due_date d) = Some t ->
     utcoffset t <> None).
  { intros d t [<- | []] _ [= <-]. discriminate. }
  split; [exact H | apply reminders_returns_due; exact H].
Defined.

(** ** Listing recurring records *)

Lemma list_recurring_unfold st client_id :
  list_recurring st client_id
  = List.map serialize_recurring
      (List.filter (fun d => String.eqb (rd_client_id d) client_id)
         (recurring st)).
Proof. unfold list_recurring. rewrite client_recurring. reflexivity. Qed.

(** X12: [list_recurring] returns one item for each recurring record of
    the client and none for another client, in store order, with the
    label, category and amount of the record; in every item the
    identifier is a text and no due date is a datetime any more. *)
Theorem list_recurring_items st client_id :
  List.map project_due (list_recurring st client_id)
  = List.map project_due
      (List.filter (fun d => String.eqb (rd_client_id d) client_id)
         (recurring st)) /\
  Forall (fun x => rd_client_id x = client_id /\
                   (exists s, rd_id x = IdStr s) /\
                   forall t, rd_next_due_date x <> Some (TDatetime t))
    (list_recurring st client_id).
Proof.
  rewrite list_recurring_unfold. split.
  - rewrite List.map_map. reflexivity.
  - apply List.Forall_forall. intros x Hx.
    apply List.in_map_iff in Hx. destruct Hx as (d & <- & Hd).
    apply List.filter_In in Hd. destruct Hd as [_ Hclient].
    apply String.eqb_eq in Hclient.
    split; [exact Hclient |]. split; [eexists; reflexivity |].
    intros t. cbn. destruct (rd_next_due_date d) as [[u | s] |]; discriminate.
Qed.

(** X13: after [create_recurring] succeeds, [list_recurring] for the
    payload's client is its list before followed by one item, whose
    identifier is the one the creation returned, whose amount and type
    are the payload's, and whose due date is the ISO text of the
    payload's date, or of the current time when the payload has none;
    the list of every other client is what it was. *)
Theorem list_recurring_after_create clock st p st' id :
  create_recurring clock st p = Ok (st', id) ->
  (exists item,
     list_recurring st' (ri_client_id p)
     = (list_recurring st (ri_client_id p) ++ [item])%list /\
     rd_id item = IdStr id /\
     rd_label item = Some (ri_label p) /\
     rd_amount item = Some (ri_amount p) /\
     rd_type item = ri_type p /\
     rd_next_due_date item
     = Some (TText (isoformat (or_now (ri_next_due_date p) (utcnow clock))))) /\
  (forall client_id, client_id <> ri_client_id p ->
     list_recurring st' client_id = list_recurring st client_id).
Proof.
  intros Hrun.
  destruct (create_recurring_inv _ _ _ _ _ Hrun)
    as (d & Hrec & _ & _ & Hid & _ & Hclient & Hl & Ha & _ & _ & Hty & Hnd & _).
  split.
  - exists (serialize_recurring d).
    rewrite !list_recurring_unfold, Hrec, List.filter_app, List.map_app.
    cbn [List.filter]. rewrite Hclient, String.eqb_refl.
    split; [reflexivity |]. cbn. rewrite Hid, Hl, Ha, Hty, Hnd.
    repeat split; reflexivity.
  - intros client_id Hne.
    rewrite !list_recurring_unfold, Hrec, List.filter_app. cbn [List.filter].
    rewrite Hclient. apply not_eq_sym, String.eqb_neq in Hne. rewrite Hne.
    rewrite app_nil_r. reflexivity.
Qed.

Lemma list_recurring_after_create_witness :
  exists st' id,
    create_recurring Sample.clock empty_store Sample.rent = Ok (st', id) /\
    (exists item,
       list_recurring st' (ri_client_id Sample.rent)
       = (list_recurring empty_store (ri_client_id Sample.rent) ++ [item])%list /\
       rd_id item = IdStr id /\
       rd_label item = Some (ri_label Sample.rent) /\
       rd_amount item = Some (ri_amount Sample.rent) /\
       rd_type item = ri_type Sample.rent /\
       rd_next_due_date item
       = Some (TText (isoformat (or_now (ri_next_due_date Sample.rent)
                                   (utcnow Sample.clock))))) /\
    (forall client_id, client_id <> ri_client_id Sample.rent ->
       list_recurring st' client_id = list_recurring empty_store client_id).
Proof.
  eexists _, _. split; [reflexivity |].
  apply (list_recurring_after_create Sample.clock empty_store Sample.rent).
  reflexivity.
Defined.

(** X14: whatever [reminders] returns as due is among what
    [list_recurring] lists for the client: each due entry is the label,
    category and amount of a listed item, and there are no more due
    entries than listed items. *)
Theorem reminders_within_list_recurring fromisoformat clock st client_id due :
  reminders fromisoformat clock st client_id = Ok due ->
  (forall x, In x due ->
     exists item, In item (list_recurring st client_id) /\
                  project_due item = x) /\
  (length due <= length (list_recurring st client_id))%nat.
Proof.
  intros Hok.
  destruct (forallb (aware_due fromisoformat)
              (List.filter (fun d => String.eqb (rd_client_id d) client_id)
                 (recurring st))) eqn:Haware.
  - rewrite (reminders_aware_exactly_due _ _ _ _ Haware) in Hok.
    injection Hok as <-. rewrite list_recurring_unfold. split.
    + intros x Hx. apply List.in_map_iff in Hx. destruct Hx as (d & <- & Hd).
      apply List.filter_In in Hd. destruct Hd as [Hd _].
      exists (serialize_recurring d). split; [| reflexivity].
      apply List.in_map. exact Hd.
    + rewrite !length_map. apply List.filter_length_le.
  - rewrite (reminders_naive_raises _ _ _ _ Haware) in Hok. discriminate.
Qed.

Lemma reminders_within_list_recurring_witness :
  exists due,
    reminders (fun _ => None) Demo.later Sample.rent_store "c1" = Ok due /\
    (forall x, In x due ->
       exists item, In item (list_recurring Sample.rent_store "c1") /\
                    project_due item = x) /\
    (length due <= length (list_recurring Sample.rent_store "c1"))%nat.
Proof.
  eexists. split; [reflexivity |].
  apply (reminders_within_list_recurring (fun _ => None) Demo.later).
  reflexivity.
Defined.

(** X15: a recurring record created without next_due_date is due from
    then on: when the client's earlier records hold no naive due date,
    [reminders] called at the clock reading of the creation or at a
    later one returns the label, category and amount of the record. *)
Theorem created_without_due_date_is_due fromisoformat clock later st p st' id :
  create_recurring clock st p = Ok (st', id) ->
  ri_next_due_date p = None ->
  wall_compare clock later <> Gt ->
  (forall d t,
     In d (recurring st) -> rd_client_id d = ri_client_id p ->
     stated_due_date fromisoformat (rd_next_due_date d) = Some t ->
     utcoffset t <> None) ->
  exists due,
    reminders fromisoformat later st' (ri_client_id p) = Ok due /\
    In {| due_label := Some (ri_label p);
          due_category := Some (ri_category p);
          due_amount := Some (ri_amount p) |} due.
Proof.
  intros Hrun Hnone Hlater Haware.
  destruct (create_recurring_inv _ _ _ _ _ Hrun)
    as (d & Hrec & _ & _ & _ & _ & Hclient & Hl & Ha & Hc & _ & _ & Hnd & _).
  rewrite Hnone in Hnd. cbn in Hnd.
  eexists. split.
  - apply reminders_aware_exactly_due, no_naive_due_date.
    rewrite Hrec. intros d' t Hin Hcl Hdate.
    apply List.in_app_iff in Hin. destruct Hin as [Hin | [<- | []]].
    + exact (Haware d' t Hin Hcl Hdate).
    + rewrite Hnd in Hdate. injection Hdate as <-. discriminate.
  - apply List.in_map_iff. exists d. split.
    + unfold project_due. rewrite Hl, Hc, Ha. reflexivity.
    + apply List.filter_In. split.
      * apply List.filter_In. split.
        -- rewrite Hrec. apply List.in_app_iff. right. left. reflexivity.
        -- rewrite Hclient. apply String.eqb_refl.
      * unfold stated_due. rewrite Hnd. cbn.
        destruct (wall_compare clock later); congruence.
Qed.

Lemma created_without_due_date_is_due_witness :
  exists st' id,
    create_recurring Sample.clock empty_store Sample.rent = Ok (st', id) /\
    ri_next_due_date Sample.rent = None /\
    wall_compare Sample.clock Demo.later <> Gt /\
    exists due,
      reminders (fun _ => None) Demo.later st' (ri_client_id Sample.rent)
        = Ok due /\
      In {| due_label := Some (ri_label Sample.rent);
            due_category := Some (ri_category Sample.rent);
            due_amount := Some (ri_amount Sample.rent) |} due.
Proof.
  eexists _, _. split; [reflexivity |]. split; [reflexivity |].
  split; [discriminate |].
  eapply (created_without_due_date_is_due (fun _ => None) Sample.clock
            Demo.later empty_store Sample.rent);
    [reflexivity | reflexivity | discriminate | intros d t []].
Defined.

(** ** More on listing transactions *)

Lemma str_ltb_irrefl s : String.ltb s s = false.
Proof. unfold String.ltb. rewrite str_compare_refl. reflexivity. Qed.

Lemma with_key_insert_desc {A} (key : A -> string) k x (l : list A) :
  with_key key k (insert_desc key x l) = with_key key k (x :: l).
Proof.
  unfold with_key. induction l as [| y l IH]; [reflexivity |].
  cbn [insert_desc]. destruct (String.ltb (key x) (key y)) eqn:Hlt;
    [| reflexivity].
  cbn [List.filter] in *. rewrite IH.
  destruct (String.eqb_spec (key x) k) as [Hx | Hx],
           (String.eqb_spec (key y) k) as [Hy | Hy]; try reflexivity.
  rewrite Hx, Hy, str_ltb_irrefl in Hlt. discriminate.
Qed.

Lemma with_key_sort_desc {A} (key : A -> string) k (l : list A) :
  with_key key k (sort_desc key l) = with_key key k l.
Proof.
  induction l as [| x l IH]; [reflexivity |].
  change (sort_desc key (x :: l)) with (insert_desc key x (sort_desc key l)).
  rewrite with_key_insert_desc. unfold with_key in *. cbn [List.filter].
  rewrite IH. reflexivity.
Qed.

(** X16: the sort of [list_transactions] is stable: the items that share
    a date key come in the order in which the store returned their
    documents. *)
Theorem list_transactions_stable st client_id category limit k :
  with_key date_key k (list_transactions st client_id category limit)
  = with_key date_key k
      (List.map serialize_transaction
         (firstn (Z.to_nat limit)
            (List.filter (selected client_id category) (transaction st)))).
Proof. rewrite list_transactions_unfold. apply with_key_sort_desc. Qed.

Lemma selected_category client_id c (d : transaction_doc) :
  c <> "" ->
  selected client_id (Some c) d = true <->
  td_client_id d = client_id /\ td_category d = Some c.
Proof.
  intros Hc. unfold selected. destruct c as [| a c]; [congruence |].
  rewrite andb_true_iff, String.eqb_eq.
  destruct (td_category d) as [c' |].
  - rewrite String.eqb_eq. split; intros [H1 H2]; split; congruence.
  - split; intros [H1 H2]; discriminate.
Qed.

(** X17: with a category that is not empty, [list_transactions] returns
    only items of that client and that category; when the limit exceeds
    their number it returns all of them, each once. *)
Theorem list_transactions_category st client_id c limit :
  c <> "" ->
  Forall (fun x => td_client_id x = client_id /\ td_category x = Some c)
    (list_transactions st client_id (Some c) limit) /\
  ((Z.of_nat (length (List.filter (selected client_id (Some c)) (transaction st)))
    < limit)%Z ->
   Permutation
     (list_transactions st client_id (Some c) limit)
     (List.map serialize_transaction
        (List.filter (selected client_id (Some c)) (transaction st)))).
Proof.
  intros Hc. rewrite list_transactions_unfold. split.
  - apply List.Forall_forall. intros x Hx.
    apply (Permutation_in _ (Permutation_sym (sort_desc_perm date_key _))) in Hx.
    apply List.in_map_iff in Hx. destruct Hx as (d & <- & Hd).
    apply in_firstn, List.filter_In in Hd. destruct Hd as [_ Hsel].
    apply (selected_category _ _ _ Hc) in Hsel. exact Hsel.
  - intros Hcount. rewrite List.firstn_all2 by lia.
    symmetry. apply sort_desc_perm.
Qed.

Lemma list_transactions_category_witness :
  "Food" <> "" /\
  Forall (fun x => td_client_id x = "c1" /\ td_category x = Some "Food")
    (list_transactions Sample.scenario_store "c1" (Some "Food") 200) /\
  ((Z.of_nat (length (List.filter (selected "c1" (Some "Food"))
                        (transaction Sample.scenario_store))) < 200)%Z ->
   Permutation
     (list_transactions Sample.scenario_store "c1" (Some "Food") 200)
     (List.map serialize_transaction
        (List.filter (selected "c1" (Some "Food"))
           (transaction Sample.scenario_store)))).
Proof.
  split; [discriminate | apply list_transactions_category; discriminate].
Defined.

(** X18: a transaction just created is listed: when the limit exceeds
    the number of the client's transactions, [list_transactions] for the
    payload's client holds an item whose identifier is the one the
    creation returned, with the normalized amount, the payload's category
    and the ISO text of the payload's date, or of the current time when
    the payload has none. *)
Theorem created_transaction_is_listed clock st p st' id limit :
  create_transaction clock st p = Ok (st', id) ->
  (Z.of_nat (length (List.filter (selected (ti_client_id p) None)
                       (transaction st'))) < limit)%Z ->
  exists item,
    In item (list_transactions st' (ti_client_id p) None limit) /\
    td_id item = IdStr id /\
    td_amount item
    = Some (if String.eqb (ti_type p) "expense"
            then Py.fneg (Py.fabs (ti_amount p)) else Py.fabs (ti_amount p)) /\
    td_category item = Some (ti_category p) /\
    td_date item
    = Some (TText (isoformat (or_now (ti_date p) (utcnow clock)))).
Proof.
  intros Hrun Hcount.
  destruct (create_transaction_stores clock st p)
    as (st'' & d & Hrun' & Htx & _ & _ & Hclient & Hamt & Hcat & Hdate & _).
  rewrite Hrun in Hrun'. injection Hrun' as <- ->.
  exists (serialize_transaction d). split.
  - rewrite list_transactions_unfold, List.firstn_all2 by lia.
    apply (Permutation_in _ (sort_desc_perm date_key _)).
    apply List.in_map, List.filter_In. split.
    + rewrite Htx. apply List.in_app_iff. right. left. reflexivity.
    + rewrite selected_none, Hclient. apply String.eqb_refl.
  - cbn. rewrite Hamt, Hcat, Hdate. repeat split; reflexivity.
Qed.

Lemma created_transaction_is_listed_witness :
  exists st' id,
    create_transaction Sample.clock empty_store Sample.food = Ok (st', id) /\
    (Z.of_nat (length (List.filter (selected (ti_client_id Sample.food) None)
                         (transaction st'))) < 200)%Z /\
    exists item,
      In item (list_transactions st' (ti_client_id Sample.food) None 200) /\
      td_id item = IdStr id /\
      td_amount item
      = Some (if String.eqb (ti_type Sample.food) "expense"
              then Py.fneg (Py.fabs (ti_amount Sample.food))
              else Py.fabs (ti_amount Sample.food)) /\
      td_category item = Some (ti_category Sample.food) /\
      td_date item
      = Some (TText (isoformat (or_now (ti_date Sample.food)
                                  (utcnow Sample.clock)))).
Proof.
  eexists _, _. split; [reflexivity |]. split; [reflexivity |].
  eapply (created_transaction_is_listed Sample.clock empty_store Sample.food);
    reflexivity.
Defined.

(** ** A client without documents *)

Lemma filter_none {A} (f : A -> bool) (l : list A) :
  (forall x, In x l -> f x = false) -> List.filter f l = [].
Proof.
  induction l as [| y l IH]; intros H; cbn; [reflexivity |].
  rewrite (H y (or_introl eq_refl)). apply IH.
  intros x Hx. apply H. right. exact Hx.
Qed.

(** X19: for a client that has no transaction and no recurring record in
    the store, every reading handler answers with its empty value and
    none fails: the balance is the int 0, the category totals are the
    empty mapping, and the listings and the reminders are empty. *)
Theorem unknown_client_reads_empty v fromisoformat clock st client_id category limit :
  (forall d, In d (transaction st) -> td_client_id d <> client_id) ->
  (forall d, In d (recurring st) -> rd_client_id d <> client_id) ->
  get_balance v st client_id = Py.Int 0 /\
  category_totals st client_id = ∅ /\
  list_transactions st client_id category limit = [] /\
  list_recurring st client_id = [] /\
  reminders fromisoformat clock st client_id = Ok [].
Proof.
  intros Htx Hrec.
  assert (Hnone : List.filter
                    (fun d => String.eqb (td_client_id d) client_id)
                    (transaction st) = []).
  { apply filter_none. intros d Hd. apply String.eqb_neq, Htx, Hd. }
  assert (Hnone' : List.filter
                     (fun d => String.eqb (rd_client_id d) client_id)
                     (recurring st) = []).
  { apply filter_none. intros d Hd. apply String.eqb_neq, Hrec, Hd. }
  split; [| split; [| split; [| split]]].
  - unfold get_balance. rewrite client_transactions, Hnone.
    destruct v; reflexivity.
  - rewrite category_totals_fold, client_transactions, Hnone. reflexivity.
  - rewrite list_transactions_unfold.
    rewrite (filter_none (selected client_id category));
      [rewrite firstn_nil; reflexivity |].
    intros d Hd. unfold selected.
    apply (Htx d), String.eqb_neq in Hd. rewrite Hd. reflexivity.
  - rewrite list_recurring_unfold, Hnone'. reflexivity.
  - unfold reminders. rewrite client_recurring, Hnone'. reflexivity.
Qed.

Lemma unknown_client_reads_empty_witness :
  (forall d, In d (transaction Sample.scenario_store) -> td_client_id d <> "c2") /\
  (forall d, In d (recurring Sample.scenario_store) -> rd_client_id d <> "c2") /\
  get_balance Py.From_3_12 Sample.scenario_store "c2" = Py.Int 0 /\
  category_totals Sample.scenario_store "c2" = ∅ /\
  list_transactions Sample.scenario_store "c2" None 200 = [] /\
  list_recurring Sample.scenario_store "c2" = [] /\
  reminders (fun _ => None) Sample.clock Sample.scenario_store "c2" = Ok [].
Proof.
  assert (H1 : forall d, In d (transaction Sample.scenario_store) ->
                         td_client_id d <> "c2")
    by (intros d [<- | [<- | []]]; discriminate).
  assert (H2 : forall d, In d (recurring Sample.scenario_store) ->
                         rd_client_id d <> "c2")
    by (intros d []).
  split; [exact H1 |]. split; [exact H2 |].
  apply unknown_client_reads_empty; assumption.
Defined.

(** ** The health check *)

(** X20: [test_database] reports at most ten collections, the first ten
    the handle lists; it reports collections only together with a
    working connection; and it reports the connection as established
    exactly when the handle is initialized and its name can be read,
    also when listing the collections fails. *)
Theorem test_database_report db database_url :
  let r := test_database db database_url in
  (length (h_collections r) <= 10)%nat /\
  (forall d names,
     db = Some d -> (forall msg, db_name d <> NameRaises msg) ->
     db_list_collection_names d = inr names ->
     h_collections r = firstn 10 names) /\
  (h_collections r <> [] ->
   h_connection_status r = "Connected" /\
   h_database r = "✅ Connected & Working") /\
  (h_connection_status r = "Connected" <->
   exists d, db = Some d /\ forall msg, db_name d <> NameRaises msg).
Proof.
  destruct db as [[name listing] |];
    [destruct name as [| s | msg]; destruct listing as [msg' | names] |];
    cbn;
    (split; [first [apply List.firstn_le_length | lia] |]);
    (split;
       [intros d ns Hdb Hname Hlist;
        first [ discriminate Hdb
              | injection Hdb as <-; cbn in Hname, Hlist;
                first [ exfalso; eapply Hname; reflexivity
                      | injection Hlist as <-; reflexivity
                      | discriminate Hlist ] ]
       |]);
    (split;
       [intros Hsome;
        first [ exfalso; apply Hsome; reflexivity | split; reflexivity ]
       |]);
    (split;
       [intros Hstatus;
        first [ discriminate Hstatus
              | eexists; split; [reflexivity | intros m; discriminate] ]
       | intros (d & Hdb & Hname);
         first [ discriminate Hdb
               | injection Hdb as <-; cbn in Hname;
                 first [ exfalso; eapply Hname; reflexivity | reflexivity ] ]]).
Qed.
